(** * MovieApp-ML: serving helpers and MovieLens integration

    A shallow embedding of the Python sources

      - [app.py]                 (Flask serving layer: text cleaning, the
                                  recommendation and similarity endpoints,
                                  rating ingestion),
      - [integrate_movielens.py] (catalog and rating integration),
      - [db_models.py]           (the relational schema, used for the shape of
                                  the records only),

    followed by the properties of the specification that these sources decide.

    Conventions.  A pandas DataFrame is a list of row records, in row order.
    Python numbers that are used arithmetically (popularity, votes, scores)
    are the rationals of [Q] that the floats are, and the division of
    float64 is a parameter of the integration script; a missing cell (NaN) is
    [None]; a JSON number is a rational in canonical form, [Qc].  Identifiers read
    from an int64 column are integers of [Z]; the one arithmetic operation on
    them, the user-id offset, is written with its 64-bit wrap-around.  A
    Python [str] is the list of its code points.  A call that may raise is a
    value of [result]. *)

From Stdlib Require Import ZArith NArith QArith Qcanon List Bool Lia.
From Stdlib Require Import Ascii DecimalString Sorted.
From stdpp Require Import base option list gmap strings.

Import ListNotations.
Local Open Scope bool_scope.

(* ===================================================================== *)
(** * Python values                                                       *)
(* ===================================================================== *)

Module Py.

(** A [str]: the sequence of its Unicode code points. *)
Definition str := list N.

(** The scalar values a JSON body or a function argument can carry. *)
Inductive value :=
| VNone
| VBool (b : bool)
| VNum (q : Qc)
| VStr (s : str).

(** [isinstance(v, str)]. *)
Definition is_str (v : value) : bool :=
  match v with VStr _ => true | _ => false end.

(** [bool(v)]: None, False, zero and the empty string are falsy. *)
Definition truthy (v : value) : bool :=
  match v with
  | VNone => false
  | VBool b => b
  | VNum q => negb (Qc_eq_bool q (Q2Qc 0))
  | VStr s => match s with [] => false | _ :: _ => true end
  end.

(** [all(vs)]. *)
Definition all (vs : list value) : bool := forallb truthy vs.

(** The number a value stands for in a comparison; [bool] is a subclass
    of [int], so [True == 1] and [False == 0]. *)
Definition as_number (v : value) : option Qc :=
  match v with
  | VBool b => Some (Q2Qc (if b then 1 else 0))
  | VNum q => Some q
  | _ => None
  end.

(** [a == b] on scalars, as pandas applies it cell by cell: numbers compare
    by value, strings by content, and a comparison across kinds or with a
    missing value is false. *)
Definition eqb (a b : value) : bool :=
  match a, b with
  | VStr s, VStr t => bool_decide (s = t)
  | VStr _, _ | _, VStr _ => false
  | _, _ =>
      match as_number a, as_number b with
      | Some x, Some y => Qc_eq_bool x y
      | _, _ => false
      end
  end.

(** Whitespace in the sense of [str.isspace], which is also the class
    [\s] of [re] on [str] patterns and the set [str.strip] removes. *)
Definition isspace (c : N) : bool :=
  ((9 <=? c) && (c <=? 13) || (28 <=? c) && (c <=? 32)
   || (c =? 133) || (c =? 160) || (c =? 5760)
   || (8192 <=? c) && (c <=? 8202)
   || (c =? 8232) || (c =? 8233) || (c =? 8239) || (c =? 8287)
   || (c =? 12288))%N.

Fixpoint lstrip (s : str) : str :=
  match s with
  | [] => []
  | c :: r => if isspace c then lstrip r else s
  end.

Definition rstrip (s : str) : str := rev (lstrip (rev s)).

(** [s.strip()]. *)
Definition strip (s : str) : str := rstrip (lstrip s).

(** [c in s]. *)
Definition contains (c : N) (s : str) : bool := existsb (N.eqb c) s.

(** [s.rfind(c)]: the index of the last occurrence, or -1. *)
Fixpoint rfind_from (c : N) (s : str) (i : Z) (found : Z) : Z :=
  match s with
  | [] => found
  | d :: r => rfind_from c r (i + 1) (if (d =? c)%N then i else found)
  end.

Definition rfind (c : N) (s : str) : Z := rfind_from c s 0 (-1).

(** [s[a:b]] for indices that are not negative. *)
Definition slice (s : str) (a b : Z) : str :=
  drop (Z.to_nat a) (take (Z.to_nat b) s).

Definition is_ascii_digit (c : N) : bool := ((48 <=? c) && (c <=? 57))%N.

(** [s.isdigit()], for the decimal digits 0 to 9.  Digits of other
    scripts, which Python counts as digits too, are taken for other
    characters: the titles and dates modelled are those written with the
    digits 0 to 9. *)
Definition isdigit (s : str) : bool :=
  match s with [] => false | _ => forallb is_ascii_digit s end.

(** The value of a string of decimal digits. *)
Definition digits_value (s : str) : Z :=
  fold_left (fun acc c => 10 * acc + (Z.of_N c - 48))%Z s 0%Z.

(** [int(s)] on a decimal literal; any other text raises ValueError,
    which is [None] here. *)
Definition int (s : str) : option Z :=
  if isdigit s then Some (digits_value s) else None.

(** [str(n)] for an integer that is not negative. *)
Definition str_of_Z (n : Z) : str :=
  map N_of_ascii
    (String.list_ascii_of_string (NilZero.string_of_uint (N.to_uint (Z.to_N n)))).

(** [s.replace(c, t)] for a single character [c]. *)
Definition replace (c : N) (t : str) (s : str) : str :=
  flat_map (fun d => if (d =? c)%N then t else [d]) s.

(** [sep.join(parts)]. *)
Fixpoint join (sep : str) (parts : list str) : str :=
  match parts with
  | [] => []
  | [p] => p
  | p :: rest => p ++ sep ++ join sep rest
  end.

(** An integer as a JSON number. *)
Definition VInt (z : Z) : value := VNum (Q2Qc (inject_Z z)).

(** A number without fractional part. *)
Definition is_int (v : value) : bool :=
  match v with
  | VNum q => (Qden q =? 1)%positive
  | _ => false
  end.

(** The integer that a JSON number without fractional part stands for. *)
Definition as_int (v : value) : option Z :=
  match v with
  | VNum q => if (Qden q =? 1)%positive then Some (Qnum q) else None
  | _ => None
  end.

(** A call that returns or raises.  Only instances of [Exception] are
    modelled; the payload is the message of [str(e)]. *)
Inductive result (A : Type) :=
| Ok (a : A)
| Raise (msg : string).
Arguments Ok {A} a.
Arguments Raise {A} msg.

(** [try: body except Exception as e: handler(e)]. *)
Definition try_except {A} (body : result A) (handler : string -> result A)
    : result A :=
  match body with
  | Ok a => Ok a
  | Raise msg => handler msg
  end.

End Py.

(* ===================================================================== *)
(** * The data files shared by the two programs                           *)
(* ===================================================================== *)

Module Data.

(** A row of [items.csv].  Text cells are [None] when pandas reads them as
    NaN, numeric cells likewise. *)
Record item := Item {
  item_id : Z;
  title : option Py.str;
  overview : option Py.str;
  poster_path : option Py.str;
  release_date : option Py.str;
  vote_average : option Q;
  vote_count : option Q;
  popularity : option Q;
  original_language : option Py.str;
  content_type : option Py.str;
  tmdb_details : option Py.str;
  genres : option Py.str;
  release_year : option Z;
  popularity_norm : option Q;
  vote_average_norm : option Q;
  vote_count_norm : option Q;
  features_text : option Py.str
}.

(** A row of [ratings.csv]: the columns user_id, item_id, rating and
    timestamp.  There is no media-type column. *)
Record rating_row := RatingRow {
  r_user_id : Py.value;
  r_item_id : Py.value;
  r_rating : Py.value;
  r_timestamp : Qc
}.

(** The two files under DATA_DIR; [None] when the file does not exist. *)
Record files := Files {
  items_csv : option (list item);
  ratings_csv : option (list rating_row)
}.

(** The mask [(df['user_id'] == u) & (df['item_id'] == i)] at one row. *)
Definition same_key (u i : Py.value) (row : rating_row) : bool :=
  Py.eqb (r_user_id row) u && Py.eqb (r_item_id row) i.

(** Equality of two cells for [drop_duplicates]: that of [==], and two
    missing cells count as equal. *)
Definition dup_cell (a b : Py.value) : bool :=
  Py.eqb a b
  || match a, b with
     | Py.VNone, Py.VNone => true
     | _, _ => false
     end.

(** [row] has the user and the item of [r], for [drop_duplicates]. *)
Definition dup_key (r row : rating_row) : bool :=
  dup_cell (r_user_id row) (r_user_id r) && dup_cell (r_item_id row) (r_item_id r).

(** The integer a cell is read as when [read_csv] finds it written as one:
    a number without fractional part, or a text of decimal digits. *)
Definition int_cell (v : Py.value) : option Z :=
  match v with
  | Py.VStr s => Py.int s
  | _ => Py.as_int v
  end.

(** Whether [read_csv] types a column int64: every cell is written as an
    integer. *)
Definition int_column (col : list Py.value) : bool :=
  forallb (fun v => match int_cell v with Some _ => true | None => false end) col.

(** A cell of a column read back; a column that is not int64 is left as
    it is here. *)
Definition retype (int64 : bool) (v : Py.value) : Py.value :=
  if int64
  then match int_cell v with Some z => Py.VInt z | None => v end
  else v.

(** [pd.read_csv] on a [ratings.csv] that held [rows]: the identifier
    columns are typed anew from what is written, so that the text 1 and the
    number 1 come back as the same int64 value. *)
Definition read_ratings (rows : list rating_row) : list rating_row :=
  let users := int_column (map r_user_id rows) in
  let items := int_column (map r_item_id rows) in
  map (fun r => RatingRow (retype users (r_user_id r)) (retype items (r_item_id r))
                  (r_rating r) (r_timestamp r))
    rows.

(** A text cell read back: the empty text is read as NaN. *)
Definition read_text (cell : option Py.str) : option Py.str :=
  match cell with
  | Some [] => None
  | _ => cell
  end.

(** [pd.read_csv] on an [items.csv] that held [rows]. *)
Definition read_items (rows : list item) : list item :=
  map (fun it =>
         Item (item_id it) (read_text (title it)) (read_text (overview it))
           (read_text (poster_path it)) (read_text (release_date it))
           (vote_average it) (vote_count it) (popularity it)
           (read_text (original_language it)) (read_text (content_type it))
           (read_text (tmdb_details it)) (read_text (genres it)) (release_year it)
           (popularity_norm it) (vote_average_norm it) (vote_count_norm it)
           (read_text (features_text it)))
    rows.

End Data.

(* ===================================================================== *)
(** * app.py                                                              *)
(* ===================================================================== *)

Module App.
Import Data.

(** ** Text cleaning *)

(** The characters of the class of the first substitution: newline,
    carriage return, tab, backslash and the double quote. *)
Definition is_unsafe (c : N) : bool :=
  ((c =? 10) || (c =? 13) || (c =? 9) || (c =? 92) || (c =? 34))%N.

(** The first [re.sub]: each such character becomes a space. *)
Definition sub_unsafe (s : Py.str) : Py.str :=
  map (fun c => if is_unsafe c then 32%N else c) s.

(** [re.sub(r'\s+', ' ', text)]: every maximal run of whitespace becomes
    one space.  [in_run] tells that the previous character belonged to the
    run being replaced. *)
Fixpoint sub_spaces (in_run : bool) (s : Py.str) : Py.str :=
  match s with
  | [] => []
  | c :: r =>
      if Py.isspace c
      then (if in_run then sub_spaces true r else 32%N :: sub_spaces true r)
      else c :: sub_spaces false r
  end.

Definition clean_text (text : Py.value) : Py.str :=
  match text with
  | Py.VStr s => Py.strip (sub_spaces false (sub_unsafe s))
  | _ => []
  end.

(** ** Models and global state *)

(** A recommendation result: (item id, score) pairs. *)
Definition recs := list (Z * Q).

(** The model classes live in [ml_recommendation_engine.models]; the
    serving layer uses them through these methods only.  Each call may
    raise. *)
Record CollaborativeFiltering := {
  cf_recommend : Z -> Z -> Py.result recs
}.

Record ContentBasedFiltering := {
  cb_recommend_for_user : Z -> Z -> option (list rating_row) -> Py.result recs;
  cb_get_similar_items : Z -> Z -> Py.result recs
}.

Record HybridRecommender := {
  hy_recommend : Z -> Z -> option (list rating_row) -> Py.result recs
}.

(** The module-level globals; [None] is Python's None. *)
Record state := State {
  cf_model : option CollaborativeFiltering;
  cb_model : option ContentBasedFiltering;
  hybrid_model : option HybridRecommender;
  items_df : option (list item);
  ratings_df : option (list rating_row)
}.

Definition initial_state : state := State None None None None None.

(** [load_data]: each frame is read when its file exists. *)
Definition load_data (st : state) (fs : files) : state :=
  State (cf_model st) (cb_model st) (hybrid_model st)
    (match items_csv fs with Some l => Some (read_items l) | None => items_df st end)
    (match ratings_csv fs with
     | Some l => Some (read_ratings l)
     | None => ratings_df st
     end).

(** ** Responses *)

(** One entry of the [recommendations] or [similar_items] array. *)
Record entry := Entry {
  e_item_id : Z;
  e_score : Q;
  e_title : Py.str;
  e_content_type : Py.str;
  e_poster_path : Py.str;
  e_overview : Py.str
}.

Inductive body :=
| BError (error : string)
| BRecommendations (user_id : Z) (strategy : string)
    (recommendations : list entry) (count : nat)
| BSimilar (item_id : Z) (similar_items : list entry)
| BSuccess (message : string).

(** [jsonify(body), status]; a bare [jsonify] is status 200. *)
Definition response := (body * Z)%type.

Definition is_error (r : response) : bool :=
  match fst r with BError _ => true | _ => false end.

(** [get_ml_recommendations(user_id, n)]. *)
Definition get_ml_recommendations (st : state) (user_id n : Z)
    : Py.result recs :=
  Py.try_except
    match hybrid_model st with
    | Some h => hy_recommend h user_id n (ratings_df st)
    | None =>
        match cb_model st with
        | Some cb => cb_recommend_for_user cb user_id n (ratings_df st)
        | None => Py.Ok []
        end
    end
    (fun _ => Py.Ok []).

(** The row of [items_df] an id denotes: the first one carrying it. *)
Definition item_info (st : state) (id : Z) : option item :=
  match items_df st with
  | Some df => List.find (fun it => (item_id it =? id)%Z) df
  | None => None
  end.

(** [item_info.get(k, '')] after NaN cells are dropped. *)
Definition get_text (info : option item) (col : item -> option Py.str) : Py.str :=
  match info with
  | Some it => default [] (col it)
  | None => []
  end.

Definition make_entry (st : state) (p : Z * Q) : entry :=
  let info := item_info st (fst p) in
  Entry (fst p) (snd p)
    (clean_text (Py.VStr (get_text info title)))
    (get_text info content_type)
    (get_text info poster_path)
    (clean_text (Py.VStr (get_text info overview))).

(** The part of [api_recommendations] after a model is chosen: its
    answer is rendered, or its exception reported. *)
Definition respond_recommendations (st : state) (user_id : Z)
    (strategy : string) (answer : Py.result recs) : response :=
  match answer with
  | Py.Raise msg => (BError msg, 500%Z)
  | Py.Ok recommendations =>
      let results := map (make_entry st) recommendations in
      (BRecommendations user_id strategy results (length results), 200%Z)
  end.

(** [api_recommendations(user_id)] with the query arguments [limit] and
    [strategy], absent when [None]. *)
Definition api_recommendations (st : state) (user_id : Z)
    (limit_arg : option Z) (strategy_arg : option string) : response :=
  let limit := default 10%Z limit_arg in
  let strategy := default "hybrid"%string strategy_arg in
  let chosen :=
    match (if String.eqb strategy "collaborative" then cf_model st else None) with
    | Some cf => Some (cf_recommend cf user_id limit)
    | None =>
        match (if String.eqb strategy "content_based" then cb_model st else None) with
        | Some cb => Some (cb_recommend_for_user cb user_id limit (ratings_df st))
        | None =>
            match hybrid_model st with
            | Some h => Some (hy_recommend h user_id limit (ratings_df st))
            | None => None
            end
        end
    end in
  match chosen with
  | None => (BError "Model yüklenmedi", 500%Z)
  | Some answer => respond_recommendations st user_id strategy answer
  end.

(** [api_similar_items(item_id)] with the query argument [limit]. *)
Definition api_similar_items (st : state) (item_id : Z)
    (limit_arg : option Z) : response :=
  let limit := default 10%Z limit_arg in
  match cb_model st with
  | None => (BError "İçerik tabanlı model yüklenmedi", 500%Z)
  | Some cb =>
      match cb_get_similar_items cb item_id limit with
      | Py.Raise msg => (BError msg, 500%Z)
      | Py.Ok similar_items =>
          (BSimilar item_id (map (make_entry st) similar_items), 200%Z)
      end
  end.

(** ** Rating ingestion *)

(** [data.get(k)]: None when the key is absent. *)
Definition get (data : gmap string Py.value) (k : string) : Py.value :=
  default Py.VNone (data !! k).

(** The two [.loc[mask, col] = v] assignments. *)
Definition overwrite (u i rating : Py.value) (now : Qc)
    (row : rating_row) : rating_row :=
  if same_key u i row
  then RatingRow (r_user_id row) (r_item_id row) rating now
  else row.

(** [api_add_rating()]: [data] is the JSON object of the request and [now]
    the reading of [pd.Timestamp.now().timestamp()].  The assignments to the
    frame and [pd.concat] are taken to succeed, as they do on a pandas that
    casts the column to fit the value; the answer 500 of the [except] branch
    is not produced here.  The result is the
    response, the new globals and the new files. *)
Definition api_add_rating (st : state) (fs : files)
    (data : gmap string Py.value) (now : Qc) : response * state * files :=
  let user_id := get data "user_id" in
  let item_id := get data "item_id" in
  let rating := get data "rating" in
  if negb (Py.all [user_id; item_id; rating])
  then ((BError "Eksik parametreler", 400%Z), st, fs)
  else
    let df := default [] (ratings_df st) in
    let df' :=
      if existsb (same_key user_id item_id) df
      then map (overwrite user_id item_id rating now) df
      else df ++ [RatingRow user_id item_id rating now] in
    ((BSuccess "Değerlendirme kaydedildi", 200%Z),
     State (cf_model st) (cb_model st) (hybrid_model st) (items_df st) (Some df'),
     Files (items_csv fs) (Some df')).

End App.

(* ===================================================================== *)
(** * integrate_movielens.py                                              *)
(* ===================================================================== *)

Module MovieLens.
Import Data.

(** A row of [movies.csv]. *)
Record movie_row := MovieRow {
  movieId : Z;
  m_title : Py.str;
  m_genres : option Py.str
}.

(** A row of [links.csv]; [tmdbId] is NaN ([None]) when the movie has no
    TMDb identifier. *)
Record link_row := LinkRow {
  l_movieId : Z;
  tmdbId : option Z
}.

(** A row of the MovieLens [ratings.csv]. *)
Record ml_rating := MlRating {
  userId : Z;
  ml_movieId : Z;
  ml_rating_value : Qc;
  ml_timestamp : Z
}.

(** A row of the frame [convert_movielens_ratings] builds. *)
Record converted := Converted {
  c_user_id : Z;
  c_item_id : Z;
  c_rating : Qc;
  c_timestamp : Z
}.

(** The keys of a TMDb movie object that the script reads, each absent or
    with a value of the type TMDb documents for it: an object with a value
    of another type, such as a null list of genres, is not modelled. *)
Record details := Details {
  d_id : option Z;
  d_overview : option Py.str;
  d_poster_path : option Py.str;
  d_release_date : option Py.str;
  d_vote_average : option Q;
  d_vote_count : option Q;
  d_popularity : option Q;
  d_original_language : option Py.str;
  d_genres : option (list Py.str)
}.

(** What [requests.get] does: it raises, or it returns a response with a
    status code whose [.json()] returns or raises. *)
Inductive http :=
| ConnError (msg : string)
| Response (status_code : Z) (json : Py.result details).

(** [k in d] for an optional key. *)
Definition present {A} (o : option A) : bool :=
  match o with Some _ => true | None => false end.

(** Addition in an int64 column. *)
Definition wrap64 (z : Z) : Z := ((z + 2 ^ 63) mod 2 ^ 64 - 2 ^ 63)%Z.

Definition Qlt_bool (x y : Q) : bool := negb (Qle_bool y x).

(** [col.max()]: the largest cell that is not NaN, NaN when there is none. *)
Definition column_max (col : list (option Q)) : option Q :=
  fold_left
    (fun acc x =>
       match acc, x with
       | None, _ => x
       | Some _, None => acc
       | Some a, Some b => Some (if Qle_bool a b then b else a)
       end)
    col None.

(** [df.head(n)]. *)
Definition head {A} (n : Z) (df : list A) : list A :=
  if (0 <=? n)%Z then take (Z.to_nat n) df
  else take (length df - Z.to_nat (- n)) df.

Section Script.

(** The environment of a run: the API key, the network and the sampler of
    [DataFrame.sample(n, random_state=42)]. *)
Variable TMDB_API_KEY : option Py.str.
Variable requests_get : Z -> http.
Variable sample : nat -> list ml_rating -> list ml_rating.

(** The division of float64, which pandas applies to the columns; the
    stats are the rationals that the floats are. *)
Variable float_div : Q -> Q -> Q.

Definition get_tmdb_movie_details (tmdb_id : Z) : option details :=
  match TMDB_API_KEY with
  | None | Some [] => None
  | Some (_ :: _) =>
      match requests_get tmdb_id with
      | ConnError _ => None
      | Response status_code json =>
          if (status_code =? 200)%Z
          then match json with Py.Ok d => Some d | Py.Raise _ => None end
          else None
      end
  end.

(** The year in the last pair of parentheses of a title, for a title whose
    digits are the digits 0 to 9 (see [Py.isdigit]). *)
Definition title_year (title : Py.str) : option Z :=
  if Py.contains 40 title && Py.contains 41 title
  then
    let year_str := Py.slice title (Py.rfind 40 title + 1) (Py.rfind 41 title) in
    if Py.isdigit year_str then Py.int year_str else None
  else None.

Definition create_item_from_movielens (movie_row : movie_row)
    (links_df : list link_row) (existing_tmdb_ids : gset Z) : option item :=
  let movie_id := movieId movie_row in
  match List.find (fun l => (l_movieId l =? movie_id)%Z) links_df with
  | None => None
  | Some link_row =>
      match tmdbId link_row with
      | None => None
      | Some tmdb_id =>
          if bool_decide (tmdb_id ∈ existing_tmdb_ids) then None
          else
            let title := m_title movie_row in
            let genres :=
              match m_genres movie_row with
              | Some g => Py.replace 124 [44; 32]%N g
              | None => []
              end in
            let release_year :=
              match title_year title with
              | Some 0%Z | None => None
              | Some y => Some y
              end in
            Some (Item tmdb_id (Some title) (Some []) (Some [])
                    (Some match release_year with
                          | Some y => Py.str_of_Z y ++ [45; 48; 49; 45; 48; 49]%N
                          | None => []
                          end)
                    (Some 0%Q) (Some 0%Q) (Some 0%Q)
                    (Some [101; 110]%N) (Some [109; 111; 118; 105; 101]%N)
                    (Some [123; 125]%N) (Some genres)
                    (Some (default 0%Z release_year))
                    (Some 0%Q) (Some 0%Q) (Some 0%Q)
                    (Some (title ++ [32%N] ++ genres)))
      end
  end.

(** A dict is truthy when it has a key. *)
Definition details_truthy (d : details) : bool :=
  present (d_id d) || present (d_overview d)
  || present (d_poster_path d) || present (d_release_date d)
  || present (d_vote_average d) || present (d_vote_count d)
  || present (d_popularity d) || present (d_original_language d)
  || present (d_genres d).

Definition enrich_with_tmdb (item : item) (tmdb_id : Z) : Data.item :=
  match get_tmdb_movie_details tmdb_id with
  | None => item
  | Some d =>
      if details_truthy d
      then
        let overview := default [] (d_overview d) in
        let genres :=
          match d_genres d with
          | Some names => Some (Py.join [44; 32]%N names)
          | None => genres item
          end in
        let release_year :=
          match d_release_date d with
          | Some (c :: rd) =>
              match Py.int (Py.slice (c :: rd) 0 4) with
              | Some y => Some y
              | None => release_year item
              end
          | _ => release_year item
          end in
        Item (item_id item) (title item) (Some overview)
          (Some (default [] (d_poster_path d)))
          (match d_release_date d with
           | Some rd => Some rd
           | None => release_date item
           end)
          (Some (default 0%Q (d_vote_average d)))
          (Some (default 0%Q (d_vote_count d)))
          (Some (default 0%Q (d_popularity d)))
          (Some (default [101; 110]%N (d_original_language d)))
          (content_type item) (tmdb_details item) genres release_year
          (popularity_norm item) (vote_average_norm item)
          (vote_count_norm item)
          (Some (default [] (title item) ++ [32%N] ++ default [] genres
                 ++ [32%N] ++ overview))
      else item
  end.

(** The loop over [movies_to_process]: it threads the list of new items
    and the set of known identifiers. *)
Fixpoint integrate_loop (enrich_from_tmdb : bool) (links_df : list link_row)
    (movies : list movie_row) (existing_tmdb_ids : gset Z)
    (new_items : list item) : list item * gset Z :=
  match movies with
  | [] => (new_items, existing_tmdb_ids)
  | movie_row :: rest =>
      match create_item_from_movielens movie_row links_df existing_tmdb_ids with
      | Some item =>
          let item :=
            if enrich_from_tmdb then enrich_with_tmdb item (item_id item)
            else item in
          integrate_loop enrich_from_tmdb links_df rest
            ({[ item_id item ]} ∪ existing_tmdb_ids) (new_items ++ [item])
      | None =>
          integrate_loop enrich_from_tmdb links_df rest
            existing_tmdb_ids new_items
      end
  end.

Definition set_popularity_norm (m : Q) (it : item) : item :=
  Item (item_id it) (title it) (overview it) (poster_path it)
    (release_date it) (vote_average it) (vote_count it) (popularity it)
    (original_language it) (content_type it) (tmdb_details it) (genres it)
    (release_year it)
    (option_map (fun p => float_div p m) (popularity it))
    (vote_average_norm it) (vote_count_norm it) (features_text it).

Definition set_vote_average_norm (it : item) : item :=
  Item (item_id it) (title it) (overview it) (poster_path it)
    (release_date it) (vote_average it) (vote_count it) (popularity it)
    (original_language it) (content_type it) (tmdb_details it) (genres it)
    (release_year it) (popularity_norm it)
    (option_map (fun v => float_div v 10%Q) (vote_average it))
    (vote_count_norm it) (features_text it).

Definition set_vote_count_norm (m : Q) (it : item) : item :=
  Item (item_id it) (title it) (overview it) (poster_path it)
    (release_date it) (vote_average it) (vote_count it) (popularity it)
    (original_language it) (content_type it) (tmdb_details it) (genres it)
    (release_year it) (popularity_norm it) (vote_average_norm it)
    (option_map (fun v => float_div v m) (vote_count it)) (features_text it).

(** The block under the comment Normalizasyon. *)
Definition normalize (combined_items : list item) : list item :=
  let step1 :=
    match column_max (map popularity combined_items) with
    | Some max_pop =>
        if Qlt_bool 0 max_pop
        then map (set_popularity_norm max_pop) combined_items
        else combined_items
    | None => combined_items
    end in
  let step2 := map set_vote_average_norm step1 in
  match column_max (map vote_count step2) with
  | Some max_votes =>
      if Qlt_bool 0 max_votes
      then map (set_vote_count_norm max_votes) step2
      else step2
  | None => step2
  end.

(** The catalog half of [integrate_movielens]: the frame written to
    [items.csv], if one is written, and the frame returned. *)
Definition integrate_items (existing : option (list item))
    (movies_df : list movie_row) (links_df : list link_row)
    (enrich_from_tmdb : bool) (max_movies : option Z)
    : option (list item) * list item :=
  let existing_items := default [] existing in
  let existing_tmdb_ids : gset Z := list_to_set (map item_id existing_items) in
  let movies_to_process :=
    match max_movies with
    | None => movies_df
    | Some n => head n movies_df
    end in
  let new_items :=
    fst (integrate_loop enrich_from_tmdb links_df movies_to_process
           existing_tmdb_ids []) in
  match new_items with
  | [] => (None, existing_items)
  | _ :: _ =>
      let combined_items := normalize (existing_items ++ new_items) in
      (Some combined_items, combined_items)
  end.

(** The left merge on movieId with the links table. *)
Definition merge_links (ml_ratings_df : list ml_rating)
    (links_df : list link_row) : list (ml_rating * option Z) :=
  flat_map
    (fun r =>
       match List.filter (fun l => (l_movieId l =? ml_movieId r)%Z) links_df with
       | [] => [(r, None)]
       | matches => map (fun l => (r, tmdbId l)) matches
       end)
    ml_ratings_df.

Definition convert_movielens_ratings (ml_ratings_df : list ml_rating)
    (links_df : list link_row) : list converted :=
  flat_map
    (fun p : ml_rating * option Z =>
       match snd p with
       | None => []
       | Some tmdb =>
           [Converted (wrap64 (userId (fst p) + 1000)) tmdb
              (ml_rating_value (fst p)) (ml_timestamp (fst p))]
       end)
    (merge_links ml_ratings_df links_df).

(** A converted row as a row of [ratings.csv]. *)
Definition to_rating_row (c : converted) : rating_row :=
  RatingRow (Py.VInt (c_user_id c)) (Py.VInt (c_item_id c))
    (Py.VNum (c_rating c)) (Q2Qc (inject_Z (c_timestamp c))).

(** [drop_duplicates(subset=['user_id', 'item_id'], keep='last')]. *)
Fixpoint drop_duplicates (rows : list rating_row) : list rating_row :=
  match rows with
  | [] => []
  | r :: rest =>
      if existsb (dup_key r) rest
      then drop_duplicates rest
      else r :: drop_duplicates rest
  end.

(** The rating half of [integrate_movielens].  The existing frame is the
    frame that was written: the script writes integer identifiers, which
    [read_csv] gives back as they are (see [Data.read_ratings] for a file
    that the application wrote). *)
Definition integrate_ratings (existing : option (list rating_row))
    (ml_ratings_df : list ml_rating) (links_df : list link_row)
    (sample_ratings : option nat) : list rating_row :=
  let ml_ratings_sample :=
    match sample_ratings with
    | None | Some 0 => ml_ratings_df
    | Some n => sample (Nat.min n (length ml_ratings_df)) ml_ratings_df
    end in
  let converted_ratings := convert_movielens_ratings ml_ratings_sample links_df in
  drop_duplicates (default [] existing ++ map to_rating_row converted_ratings).

(** [integrate_movielens]: the returned pair and the files it leaves. *)
Definition integrate_movielens (fs : files) (movies_df : list movie_row)
    (ml_ratings_df : list ml_rating) (links_df : list link_row)
    (enrich_from_tmdb : bool) (max_movies : option Z)
    (sample_ratings : option nat) : (list item * list rating_row) * files :=
  let '(saved, items) :=
    integrate_items (items_csv fs) movies_df links_df enrich_from_tmdb max_movies in
  let combined_ratings :=
    integrate_ratings (ratings_csv fs) ml_ratings_df links_df sample_ratings in
  ((items, combined_ratings),
   Files (match saved with Some l => Some l | None => items_csv fs end)
     (Some combined_ratings)).

(** ** Rows of [movies.csv] as they are read

    [read_csv] reads an empty title cell as NaN, a float.  The functions
    above take the title of a row as a text; those below take the row as
    it is read and raise where the source does:
    [create_item_from_movielens] evaluates ['(' in title] outside any
    [try], after its two early returns, and nothing in the loop or in
    [integrate_movielens] catches the exception, so that the script stops
    before it writes a file. *)
Record csv_movie_row := CsvMovieRow {
  csv_movieId : Z;
  csv_title : option Py.str;
  csv_genres : option Py.str
}.

Definition create_item_from_csv_row (row : csv_movie_row)
    (links_df : list link_row) (existing_tmdb_ids : gset Z)
    : Py.result (option item) :=
  match csv_title row with
  | Some title =>
      Py.Ok (create_item_from_movielens
               (MovieRow (csv_movieId row) title (csv_genres row))
               links_df existing_tmdb_ids)
  | None =>
      (* the two early returns do not look at the title; past them, the
         test of the parenthesis raises TypeError on the float *)
      match create_item_from_movielens
              (MovieRow (csv_movieId row) [] (csv_genres row))
              links_df existing_tmdb_ids with
      | None => Py.Ok None
      | Some _ => Py.Raise "argument of type 'float' is not iterable"
      end
  end.

Fixpoint integrate_csv_loop (enrich_from_tmdb : bool) (links_df : list link_row)
    (movies : list csv_movie_row) (existing_tmdb_ids : gset Z)
    (new_items : list item) : Py.result (list item * gset Z) :=
  match movies with
  | [] => Py.Ok (new_items, existing_tmdb_ids)
  | movie_row :: rest =>
      match create_item_from_csv_row movie_row links_df existing_tmdb_ids with
      | Py.Raise e => Py.Raise e
      | Py.Ok (Some item) =>
          let item :=
            if enrich_from_tmdb then enrich_with_tmdb item (item_id item)
            else item in
          integrate_csv_loop enrich_from_tmdb links_df rest
            ({[ item_id item ]} ∪ existing_tmdb_ids) (new_items ++ [item])
      | Py.Ok None =>
          integrate_csv_loop enrich_from_tmdb links_df rest
            existing_tmdb_ids new_items
      end
  end.

(** [integrate_movielens] on the rows as read: the returned pair and the
    files it leaves, or the exception that ends the script, in which case
    the files are as they were. *)
Definition integrate_movielens_csv (fs : files) (movies_df : list csv_movie_row)
    (ml_ratings_df : list ml_rating) (links_df : list link_row)
    (enrich_from_tmdb : bool) (max_movies : option Z)
    (sample_ratings : option nat)
    : Py.result ((list item * list rating_row) * files) :=
  let existing_items := default [] (items_csv fs) in
  let existing_tmdb_ids : gset Z := list_to_set (map item_id existing_items) in
  let movies_to_process :=
    match max_movies with
    | None => movies_df
    | Some n => head n movies_df
    end in
  match integrate_csv_loop enrich_from_tmdb links_df movies_to_process
          existing_tmdb_ids [] with
  | Py.Raise e => Py.Raise e
  | Py.Ok (new_items, _) =>
      let '(saved, items) :=
        match new_items with
        | [] => (None, existing_items)
        | _ :: _ =>
            let combined_items := normalize (existing_items ++ new_items) in
            (Some combined_items, combined_items)
        end in
      let combined_ratings :=
        integrate_ratings (ratings_csv fs) ml_ratings_df links_df sample_ratings in
      Py.Ok ((items, combined_ratings),
             Files (match saved with Some l => Some l | None => items_csv fs end)
               (Some combined_ratings))
  end.

End Script.

End MovieLens.

(* ===================================================================== *)
(** * The content-based model                                             *)
(* ===================================================================== *)

Module ContentBased.

Section Model.

(** Modelled from the spec: the cosine similarity of the feature vectors
    of two items, which [models/content_based.py] computes; the file is
    not part of the sources at hand. *)
Variable similarity : Z -> Z -> Q.

(** Modelled from the spec: the configured neighbour limit K. *)
Variable K : nat.

(** Modelled from the spec: insertion into a row ordered by similarity,
    highest first. *)
Fixpoint insert_desc (p : Z * Q) (row : App.recs) : App.recs :=
  match row with
  | [] => [p]
  | q :: rest =>
      if Qle_bool (snd q) (snd p) then p :: q :: rest
      else q :: insert_desc p rest
  end.

(** Modelled from the spec: ordering a row by similarity, highest first. *)
Definition sort_desc (row : App.recs) : App.recs :=
  fold_right insert_desc [] row.

(** Modelled from the spec: the SimilarityIndex row of an item, its top-K
    most similar other items. *)
Definition neighbours (catalog : list Z) (i : Z) : App.recs :=
  take K
    (sort_desc
       (map (fun j => (j, similarity i j))
          (List.filter (fun j => negb (j =? i)%Z) catalog))).

(** Modelled from the spec: [train(catalog)] builds the SimilarityIndex,
    one row per item of the catalog. *)
Definition train (catalog : list Data.item) : gmap Z App.recs :=
  let ids := map Data.item_id catalog in
  list_to_map (map (fun i => (i, neighbours ids i)) ids).

(** Modelled from the spec: [get_similar_items(item_id, n)] returns the
    top n entries of the row of the item and fails with NotFound when the
    item is absent from the trained catalog. *)
Definition get_similar_items (index : gmap Z App.recs) (item_id : Z)
    (n : nat) : Py.result App.recs :=
  match index !! item_id with
  | Some row => Py.Ok (take n row)
  | None => Py.Raise "NotFound"
  end.

(** Modelled from the spec: a trained model as the serving layer holds
    it; [recommend_for_user] is left to the caller. *)
Definition model (index : gmap Z App.recs)
    (recommend_for_user : Z -> Z -> option (list Data.rating_row) -> Py.result App.recs)
    : App.ContentBasedFiltering :=
  {| App.cb_recommend_for_user := recommend_for_user;
     App.cb_get_similar_items :=
       fun item_id n => get_similar_items index item_id (Z.to_nat n) |}.

End Model.

End ContentBased.

(* ===================================================================== *)
(** * The two programs over the shared files                              *)
(* ===================================================================== *)

Module System.

(** The globals of the running application and the files on disk.  With
    the default DATA_DIR the application and the integration script read and
    write the same [items.csv] and [ratings.csv]. *)
Record world := World {
  app : App.state;
  disk : Data.files
}.

Definition initial_world : world :=
  World App.initial_state (Data.Files None None).

(** The environment and the inputs of one run of the integration script. *)
Record run_args := RunArgs {
  TMDB_API_KEY : option Py.str;
  requests_get : Z -> MovieLens.http;
  sample : nat -> list MovieLens.ml_rating -> list MovieLens.ml_rating;
  float_div : Q -> Q -> Q;
  movies_df : list MovieLens.movie_row;
  ml_ratings_df : list MovieLens.ml_rating;
  links_df : list MovieLens.link_row;
  enrich_from_tmdb : bool;
  max_movies : option Z;
  sample_ratings : option nat
}.

Definition integrate (a : run_args) (fs : Data.files)
    : (list Data.item * list Data.rating_row) * Data.files :=
  MovieLens.integrate_movielens (TMDB_API_KEY a) (requests_get a) (sample a)
    (float_div a) fs (movies_df a) (ml_ratings_df a) (links_df a)
    (enrich_from_tmdb a) (max_movies a) (sample_ratings a).

(** What can happen to the rating store. *)
Inductive op :=
| LoadData
| AddRating (data : gmap string Py.value) (now : Qc)
| Integrate (a : run_args).

Definition step (w : world) (o : op) : world :=
  match o with
  | LoadData => World (App.load_data (app w) (disk w)) (disk w)
  | AddRating data now =>
      let '(_, st, fs) := App.api_add_rating (app w) (disk w) data now in
      World st fs
  | Integrate a => World (app w) (snd (integrate a (disk w)))
  end.

Definition run (ops : list op) (w : world) : world := fold_left step ops w.

End System.

(* ===================================================================== *)
(** * app.py: the other routes                                            *)
(* ===================================================================== *)

Module Routes.

(** ** The watchlist *)

(** A Python dict with [str] keys: its entries in insertion order, one per
    key. *)
Definition dict (V : Type) := list (Py.str * V).

(** [k in d]. *)
Definition dict_contains {V} (k : Py.str) (d : dict V) : bool :=
  existsb (fun p => bool_decide (fst p = k)) d.

(** [d.get(k)]. *)
Definition dict_get {V} (k : Py.str) (d : dict V) : option V :=
  option_map snd (List.find (fun p => bool_decide (fst p = k)) d).

(** [d[k] = v]: the value of a present key is replaced in place, a new key
    goes to the end. *)
Fixpoint dict_set {V} (k : Py.str) (v : V) (d : dict V) : dict V :=
  match d with
  | [] => [(k, v)]
  | p :: rest =>
      if bool_decide (fst p = k) then (k, v) :: rest
      else p :: dict_set k v rest
  end.

(** [del d[k]]. *)
Definition dict_del {V} (k : Py.str) (d : dict V) : dict V :=
  List.filter (fun p => negb (bool_decide (fst p = k))) d.

(** [list(d.values())]. *)
Definition dict_values {V} (d : dict V) : list V := map snd d.

(** The JSON object of a request. *)
Definition json_object := gmap string Py.value.

Inductive method := GET | POST | DELETE.

(** The bodies these routes answer with; every one of them has status
    200 unless it is paired with another. *)
Inductive reply (R : Type) :=
| RError (error : string)
| RWatchlist (watchlist : list json_object)
| RSuccess (message : string)
| RSearch (movies tv_series : list R).
Arguments RError {R} error.
Arguments RWatchlist {R} watchlist.
Arguments RSuccess {R} message.
Arguments RSearch {R} movies tv_series.

Section Watchlist.

(** Python's [str()] on the value of a JSON field. *)
Variable str_of : Py.value -> Py.str.

(** [api_watchlist()]: the reply and the new [user_watchlist].  [data] is
    the JSON object of the request, which GET does not read. *)
Definition api_watchlist (user_watchlist : dict json_object) (m : method)
    (data : json_object) : reply Empty_set * dict json_object :=
  match m with
  | GET => (RWatchlist (dict_values user_watchlist), user_watchlist)
  | POST =>
      let item_id := str_of (App.get data "item_id") in
      (RSuccess "Listeye eklendi", dict_set item_id data user_watchlist)
  | DELETE =>
      let item_id := str_of (App.get data "item_id") in
      (RSuccess "Listeden çıkarıldı",
       if dict_contains item_id user_watchlist
       then dict_del item_id user_watchlist
       else user_watchlist)
  end.

End Watchlist.

(** ** Authentication *)

(** [s.split(c)] for a one-character separator: every occurrence
    separates, so that adjacent separators give empty fields. *)
Fixpoint split (c : N) (s : Py.str) : list Py.str :=
  match s with
  | [] => [[]]
  | d :: r =>
      if (d =? c)%N then [] :: split c r
      else
        match split c r with
        | field :: fields => (d :: field) :: fields
        | [] => [[d]]
        end
  end.

(** [auth_required(f)]: [verify_token] tells whether the decoded payload
    of a token is truthy, [auth_header] is the Authorization header of the
    request, and [f] the decorated view with its arguments applied. *)
Definition auth_required (verify_token : Py.str -> bool)
    (f : App.response) (auth_header : option Py.str) : App.response :=
  match auth_header with
  | None | Some [] => (App.BError "Yetkilendirme başlığı eksik", 401%Z)
  | Some (c :: h) =>
      match nth_error (split 32 (c :: h)) 1 with
      | None => (App.BError "Geçersiz yetkilendirme başlığı formatı", 401%Z)
      | Some token =>
          if verify_token token then f
          else (App.BError "Geçersiz veya süresi dolmuş token", 401%Z)
      end
  end.

(** ** Search *)

Section Search.

(** A search result of TMDb, as the API returns it. *)
Variable R : Type.

(** What a GET on a TMDb search URL does: it raises, or it returns a
    response with a status code whose JSON body cannot be decoded, or is
    an object with or without the key results. *)
Inductive tmdb :=
| Unreachable (msg : string)
| Status (status_code : Z) (json : Py.result (option (list R))).

(** The two search endpoints of TMDb, by query and page. *)
Variable get_search_movie : Py.str -> Z -> tmdb.
Variable get_search_tv : Py.str -> Z -> tmdb.

(** [response.raise_for_status()] raises on a 4xx or 5xx status. *)
Definition raises_for_status (status_code : Z) : bool :=
  (400 <=? status_code)%Z && (status_code <? 600)%Z.

(** The body shared by [search_movies] and [search_tv_series]. *)
Definition search_results (r : tmdb) : list R :=
  match r with
  | Unreachable _ => []
  | Status status_code json =>
      if raises_for_status status_code then []
      else
        match json with
        | Py.Ok (Some results) => results
        | Py.Ok None => []
        | Py.Raise _ => []
        end
  end.

Definition search_movies (query : Py.str) (page : Z) : list R :=
  search_results (get_search_movie query page).

Definition search_tv_series (query : Py.str) (page : Z) : list R :=
  search_results (get_search_tv query page).

(** [api_search()] with the query arguments q, type and page. *)
Definition api_search (q_arg : option Py.str) (type_arg : option string)
    (page_arg : option Z) : reply R * Z :=
  let query := default [] q_arg in
  let content_type := default "all"%string type_arg in
  let page := default 1%Z page_arg in
  match query with
  | [] => (RError "Arama sorgusu gerekli", 400%Z)
  | _ :: _ =>
      let movies :=
        if String.eqb content_type "all" || String.eqb content_type "movie"
        then search_movies query page else [] in
      let tv_series :=
        if String.eqb content_type "all" || String.eqb content_type "tv"
        then search_tv_series query page else [] in
      (RSearch movies tv_series, 200%Z)
  end.

End Search.

(** ** The recommendations page *)

(** The list [ml_recommendations] that [recommendations_page] hands to its
    template: the rows of the catalog the model recommends, each with its
    score.  [user_id_arg] is the query argument user_id. *)
Definition recommendations_page (st : App.state) (user_id_arg : option Z)
    : Py.result (list (Data.item * Q)) :=
  let user_id := default 1%Z user_id_arg in
  if MovieLens.present (App.hybrid_model st) || MovieLens.present (App.cb_model st)
  then
    match App.get_ml_recommendations st user_id 20 with
    | Py.Raise msg => Py.Raise msg
    | Py.Ok raw_recommendations =>
        Py.Ok
          (flat_map
             (fun p : Z * Q =>
                match App.item_info st (fst p) with
                | Some item_info => [(item_info, snd p)]
                | None => []
                end)
             raw_recommendations)
    end
  else Py.Ok [].

End Routes.

(* ===================================================================== *)
(** * Specification predicates                                            *)
(* ===================================================================== *)

(** [no_run p s]: [s] has no two adjacent whitespace characters, and does
    not start with one when [p] holds. *)
Fixpoint no_run (p : bool) (s : Py.str) : bool :=
  match s with
  | [] => true
  | c :: r => if Py.isspace c then negb p && no_run true r else no_run false r
  end.

(** The key of a stored rating whose identifiers are integers: its user
    and its item.  The frame has no media-type column. *)
Definition rating_key (row : Data.rating_row) : option (Z * Z) :=
  match Py.as_int (Data.r_user_id row), Py.as_int (Data.r_item_id row) with
  | Some u, Some i => Some (u, i)
  | _, _ => None
  end.

(** A row whose identifiers are integers, as the columns user_id and
    item_id of the schema are.  On such rows writing the frame to
    [ratings.csv] and reading it back gives the same frame. *)
Definition id_typed (row : Data.rating_row) : bool :=
  Py.is_int (Data.r_user_id row) && Py.is_int (Data.r_item_id row).

(** A frame of ratings in good order: integer identifiers and at most one
    row per key. *)
Definition frame_ok (rows : list Data.rating_row) : Prop :=
  forallb id_typed rows = true /\ NoDup (map rating_key rows).

(** The invariant of the rating store, in memory and on disk. *)
Definition store_ok (w : System.world) : Prop :=
  frame_ok (default [] (App.ratings_df (System.app w)))
  /\ frame_ok (default [] (Data.ratings_csv (System.disk w))).


(** The class of a value under [==]: its number or its text. *)
Definition eq_class (v : Py.value) : option (Qc + Py.str) :=
  match v with
  | Py.VStr s => Some (inr s)
  | _ => option_map inl (Py.as_number v)
  end.

(** The strategy names of the query surface. *)
Definition recognized (strategy : string) : bool :=
  String.eqb strategy "collaborative" || String.eqb strategy "content_based"
  || String.eqb strategy "hybrid".

(** Whether the model a strategy names is loaded. *)
Definition named_model_loaded (st : App.state) (strategy : string) : bool :=
  if String.eqb strategy "collaborative" then MovieLens.present (App.cf_model st)
  else if String.eqb strategy "content_based" then MovieLens.present (App.cb_model st)
  else if String.eqb strategy "hybrid" then MovieLens.present (App.hybrid_model st)
  else false.

(** A result ordered by score, highest first. *)
Definition non_increasing (row : App.recs) : Prop :=
  StronglySorted (fun p q => (snd q <= snd p)%Q) row.

(** What the normalization block does to one row, given the two column
    maxima. *)
Definition normalize_item (float_div : Q -> Q -> Q) (max_pop max_votes : option Q)
    (it : Data.item) : Data.item :=
  let it1 :=
    match max_pop with
    | Some m =>
        if MovieLens.Qlt_bool 0 m then MovieLens.set_popularity_norm float_div m it
        else it
    | None => it
    end in
  let it2 := MovieLens.set_vote_average_norm float_div it1 in
  match max_votes with
  | Some m =>
      if MovieLens.Qlt_bool 0 m then MovieLens.set_vote_count_norm float_div m it2
      else it2
  | None => it2
  end.

(** [m] is the maximum observed in a column: one of its cells, and no cell
    that is not NaN is larger. *)
Definition is_max (col : list (option Q)) (m : Q) : Prop :=
  In (Some m) col /\ forall x, In (Some x) col -> (x <= m)%Q.

(** What float64 division is known to do: it rounds the quotient, so that
    it grows with the dividend, and it is exact on m / m and 0 / m. *)
Definition rounds_quotient (float_div : Q -> Q -> Q) : Prop :=
  (forall p q m, (0 < m)%Q -> (p <= q)%Q -> (float_div p m <= float_div q m)%Q)
  /\ (forall m, (0 < m)%Q -> (float_div m m == 1)%Q)
  /\ (forall m, (0 < m)%Q -> (float_div 0 m == 0)%Q).

(** A normalized value within the unit interval. *)
Definition in_unit (v : option Q) : Prop :=
  exists q, v = Some q /\ (0 <= q)%Q /\ (q <= 1)%Q.

(** The column [norm] of the row [it] is the column [raw] divided by the
    maximum observed in [raw] over the frame [saved], when that maximum is
    positive. *)
Definition scaled_by_max (float_div : Q -> Q -> Q) (saved : list Data.item)
    (raw norm : Data.item -> option Q) (it : Data.item) : Prop :=
  forall m, is_max (map raw saved) m -> (0 < m)%Q ->
    exists m', is_max (map raw saved) m'
               /\ norm it = option_map (fun p => float_div p m') (raw it).

(** A row [it] of the frame [saved] written to [items.csv] is normalized. *)
Definition normalized_in (float_div : Q -> Q -> Q) (saved : list Data.item)
    (it : Data.item) : Prop :=
  scaled_by_max float_div saved Data.popularity Data.popularity_norm it
  /\ scaled_by_max float_div saved Data.vote_count Data.vote_count_norm it
  /\ Data.vote_average_norm it
     = option_map (fun v => float_div v 10%Q) (Data.vote_average it).

(** A normalized row has its normalized stats in the unit interval, each
    when its raw stat is not negative and does not exceed the bound used. *)
Definition normalized_in_unit (saved : list Data.item) (it : Data.item) : Prop :=
  (forall m p, is_max (map Data.popularity saved) m -> (0 < m)%Q ->
     Data.popularity it = Some p -> (0 <= p)%Q ->
     (p <= m)%Q /\ in_unit (Data.popularity_norm it))
  /\ (forall m v, is_max (map Data.vote_count saved) m -> (0 < m)%Q ->
        Data.vote_count it = Some v -> (0 <= v)%Q ->
        (v <= m)%Q /\ in_unit (Data.vote_count_norm it))
  /\ (forall v, Data.vote_average it = Some v -> (0 <= v)%Q -> (v <= 10)%Q ->
        in_unit (Data.vote_average_norm it)).

(** The TMDb identifier the links table gives a MovieLens movie: that of
    the first row of the movie, if the row has one. *)
Definition lookup_tmdb (links_df : list MovieLens.link_row) (movie_id : Z) : option Z :=
  match List.find (fun l => (MovieLens.l_movieId l =? movie_id)%Z) links_df with
  | Some l => MovieLens.tmdbId l
  | None => None
  end.

(** The conversion of one rating row: dropped without a TMDb identifier,
    and otherwise carried over with the user-id offset. *)
Definition converted_row (links_df : list MovieLens.link_row)
    (r : MovieLens.ml_rating) : list MovieLens.converted :=
  match lookup_tmdb links_df (MovieLens.ml_movieId r) with
  | Some tmdb =>
      [MovieLens.Converted (MovieLens.userId r + 1000) tmdb
         (MovieLens.ml_rating_value r) (MovieLens.ml_timestamp r)]
  | None => []
  end.

(** A MovieLens user id: positive, and small enough for the offset to stay
    within int64. *)
Definition user_id_ok (r : MovieLens.ml_rating) : Prop :=
  (1 <= MovieLens.userId r < 2 ^ 63 - 1000)%Z.

(** The catalog file after a run of the catalog half of the integration:
    the frame saved, or the previous file when nothing is saved. *)
Definition catalog_after (existing saved : option (list Data.item))
    : option (list Data.item) :=
  match saved with
  | Some l => Some l
  | None => existing
  end.

(** The identifiers of a catalog. *)
Definition catalog_ids (catalog : option (list Data.item)) : list Z :=
  map Data.item_id (default [] catalog).

(** A character that [clean_text] has no reason to touch: neither
    whitespace nor one of the five replaced characters. *)
Definition visible (c : N) : bool := negb (Py.isspace c) && negb (App.is_unsafe c).

(** A text in the form [clean_text] produces: no replaced character, no
    whitespace but the plain space, none at either end and no two in a
    row. *)
Definition tidy (s : Py.str) : Prop :=
  (forall c, In c s -> App.is_unsafe c = false)
  /\ (forall c, In c s -> Py.isspace c = true -> c = 32%N)
  /\ no_run true s = true
  /\ (forall r c, s = r ++ [c] -> Py.isspace c = false).

(** The key of a row as [drop_duplicates] sees it: the values of its
    user and item cells, where equal numbers are one value, a text is its
    characters and a missing cell is a value of its own. *)
Definition frame_key (r : Data.rating_row)
    : option (Qc + Py.str) * option (Qc + Py.str) :=
  (eq_class (Data.r_user_id r), eq_class (Data.r_item_id r)).

(** Every row of [rows] is the last of its key: [drop_duplicates] finds no
    row after it to keep in its place. *)
Fixpoint last_of_key (rows : list Data.rating_row) : Prop :=
  match rows with
  | [] => True
  | r :: rest => existsb (Data.dup_key r) rest = false /\ last_of_key rest
  end.


(* ===================================================================== *)
(** * Sample inputs                                                       *)
(* ===================================================================== *)

(** A request body used to exercise rating ingestion: user 1 rates item 10
    with [r]. *)
Definition sample_rating (r : Z) : gmap string Py.value :=
  <[ "user_id"%string := Py.VInt 1 ]>
    (<[ "item_id"%string := Py.VInt 10 ]>
       (<[ "rating"%string := Py.VInt r ]> ∅)).


(** Four rows of two keys, one of them with a missing user: user 1 and
    the missing user rate item 10 twice each. *)
Definition rated_twice : list Data.rating_row :=
  [Data.RatingRow (Py.VInt 1) (Py.VInt 10) (Py.VInt 3) (Q2Qc 100);
   Data.RatingRow Py.VNone (Py.VInt 10) (Py.VInt 4) (Q2Qc 200);
   Data.RatingRow (Py.VInt 1) (Py.VInt 10) (Py.VInt 5) (Q2Qc 300);
   Data.RatingRow Py.VNone (Py.VInt 10) (Py.VInt 6) (Q2Qc 400)].




(** A state in which only the hybrid model is loaded; it recommends item 7
    with score 1 to everybody. *)
Definition hybrid_only : App.state :=
  App.State None None
    (Some {| App.hy_recommend := fun _ _ _ => Py.Ok [(7%Z, 1%Q)] |})
    None None.

(** A state whose only model is a content-based one that knows user 1 and
    raises for every other user. *)
Definition strict_content_based : App.state :=
  App.State None
    (Some {| App.cb_recommend_for_user :=
               fun u _ _ => if (u =? 1)%Z then Py.Ok [(7%Z, 1%Q)]
                            else Py.Raise "unknown user";
             App.cb_get_similar_items := fun _ _ => Py.Ok [] |})
    None None None.

(** A state whose content-based model finds two items similar to every
    item: 500, which the catalog holds under an untidy title, and 999, which
    the catalog does not know. *)
Definition similar_in_catalog : App.state :=
  App.State None
    (Some {| App.cb_recommend_for_user := fun _ _ _ => Py.Ok [];
             App.cb_get_similar_items :=
               fun _ _ => Py.Ok [(500%Z, (9 # 10)%Q); (999%Z, (1 # 2)%Q)] |})
    None
    (Some [Data.Item 500 (Some [32; 32; 65; 9; 66; 32]%N) None None None
             (Some 8%Q) (Some 20%Q) (Some 4%Q)
             None None None None None None None None None])
    None.

(** A similarity used to exercise the content-based model: items are the
    more similar the closer their identifiers. *)
Definition closeness (i j : Z) : Q := (1 # Pos.of_succ_nat (Z.abs_nat (i - j)))%Q.

(** A catalog row that carries an identifier only. *)
Definition bare_item (id : Z) : Data.item :=
  Data.Item id None None None None None None None None None None None None
    None None None None.

(** An environment without network access: no API key, and a request that
    would fail. *)
Definition offline : Z -> MovieLens.http := fun _ => MovieLens.ConnError "offline".

(** Toy Story (1995), Adventure|Children, with MovieLens id 1. *)
Definition toy_story : MovieLens.movie_row :=
  MovieLens.MovieRow 1
    [84; 111; 121; 32; 83; 116; 111; 114; 121; 32; 40; 49; 57; 57; 53; 41]%N
    (Some [65; 100; 118; 101; 110; 116; 117; 114; 101; 124; 67; 104; 105; 108;
           100; 114; 101; 110]%N).

(** A catalog of one item, with popularity 4, average 8 and 20 votes. *)
Definition one_item_catalog : list Data.item :=
  [Data.Item 500 (Some [65]%N) None None None (Some 8%Q) (Some 20%Q) (Some 4%Q)
     None None None None None None None None None].

(** A catalog of two items, with popularity 4 and 8. *)
Definition two_item_catalog : list Data.item :=
  [Data.Item 500 (Some [65]%N) None None None (Some 8%Q) (Some 20%Q) (Some 4%Q)
     None None None None None None None None None;
   Data.Item 501 (Some [66]%N) None None None (Some 6%Q) (Some 10%Q) (Some 8%Q)
     None None None None None None None None None].

(** A catalog in which no popularity is positive and one row has an old
    popularity_norm. *)
Definition stale_catalog : list Data.item :=
  [Data.Item 1 (Some [65]%N) None None None (Some 7%Q) (Some 3%Q) (Some 0%Q)
     None None None None None (Some (1 # 2)) None None None;
   Data.Item 2 (Some [66]%N) None None None (Some 5%Q) (Some 6%Q) (Some (-1)%Q)
     None None None None None None None None None].

(** Jumanji (1995) with MovieLens id 2, and a movie with MovieLens id 3
    that the links table below does not map. *)
Definition jumanji : MovieLens.movie_row :=
  MovieLens.MovieRow 2 [74; 117; 109; 97; 110; 106; 105; 32; 40; 49; 57; 57; 53; 41]%N
    (Some [65; 100; 118; 101; 110; 116; 117; 114; 101]%N).

(** The rows of Toy Story and Jumanji as read from [movies.csv], and a row
    of the movie 2 whose title cell is empty. *)
Definition csv_toy_story : MovieLens.csv_movie_row :=
  MovieLens.CsvMovieRow (MovieLens.movieId toy_story)
    (Some (MovieLens.m_title toy_story)) (MovieLens.m_genres toy_story).

Definition csv_jumanji : MovieLens.csv_movie_row :=
  MovieLens.CsvMovieRow (MovieLens.movieId jumanji)
    (Some (MovieLens.m_title jumanji)) (MovieLens.m_genres jumanji).

Definition untitled_movie : MovieLens.csv_movie_row :=
  MovieLens.CsvMovieRow 2 None None.

Definition unmapped_movie : MovieLens.movie_row :=
  MovieLens.MovieRow 3 [71; 114; 117; 109; 112; 105; 101; 114]%N None.

Definition sample_links : list MovieLens.link_row :=
  [MovieLens.LinkRow 1 (Some 862%Z); MovieLens.LinkRow 2 (Some 8844%Z);
   MovieLens.LinkRow 3 None].

(** Run arguments used to exercise the integration: two movies, two
    ratings of one user, no enrichment, no sampling. *)
Definition sample_run : System.run_args :=
  System.RunArgs None offline (fun _ l => l) Qdiv [toy_story; jumanji]
    [MovieLens.MlRating 1 1 (Q2Qc 4) 964982703;
     MovieLens.MlRating 1 1 (Q2Qc 5) 964982999]
    sample_links false None None.

(* ===================================================================== *)
(** * clean_text                                                          *)
(* ===================================================================== *)

Lemma lstrip_suffix (s : Py.str) : exists pre, s = pre ++ Py.lstrip s.
Proof.
  induction s as [|c r [pre IH]]; simpl.
  - now exists [].
  - destruct (Py.isspace c).
    + exists (c :: pre). simpl. now f_equal.
    + now exists [].
Qed.

Lemma lstrip_head (s : Py.str) c r : Py.lstrip s = c :: r -> Py.isspace c = false.
Proof.
  induction s as [|d t IH]; simpl; [discriminate|].
  destruct (Py.isspace d) eqn:E; [exact IH|].
  intros [= <- _]. exact E.
Qed.

Lemma rstrip_prefix (s : Py.str) : exists post, s = Py.rstrip s ++ post.
Proof.
  unfold Py.rstrip. destruct (lstrip_suffix (rev s)) as [pre H].
  exists (rev pre). rewrite <- rev_app_distr, <- H. symmetry. apply rev_involutive.
Qed.

Lemma rstrip_last (s : Py.str) r c : Py.rstrip s = r ++ [c] -> Py.isspace c = false.
Proof.
  unfold Py.rstrip. intros H.
  apply (f_equal (@rev N)) in H. rewrite rev_involutive, rev_app_distr in H.
  simpl in H. now apply lstrip_head in H.
Qed.

Lemma strip_infix (s : Py.str) : exists pre post, s = pre ++ Py.strip s ++ post.
Proof.
  unfold Py.strip. destruct (lstrip_suffix s) as [pre H].
  destruct (rstrip_prefix (Py.lstrip s)) as [post H'].
  exists pre, post. now rewrite <- H'.
Qed.

Lemma strip_head (s : Py.str) c r : Py.strip s = c :: r -> Py.isspace c = false.
Proof.
  unfold Py.strip. intros H.
  destruct (rstrip_prefix (Py.lstrip s)) as [post H'].
  rewrite H in H'. simpl in H'. now apply lstrip_head in H'.
Qed.

Lemma sub_unsafe_chars (s : Py.str) c :
  In c (App.sub_unsafe s) -> App.is_unsafe c = false.
Proof.
  unfold App.sub_unsafe. rewrite in_map_iff. intros (d & <- & _).
  destruct (App.is_unsafe d) eqn:E; [reflexivity | exact E].
Qed.

Lemma sub_spaces_chars (s : Py.str) b c :
  In c (App.sub_spaces b s) -> c = 32%N \/ (In c s /\ Py.isspace c = false).
Proof.
  revert b. induction s as [|d r IH]; simpl; intros b H; [contradiction|].
  destruct (Py.isspace d) eqn:E.
  - destruct b; simpl in H.
    + destruct (IH _ H) as [->|[? ?]]; auto.
    + destruct H as [<-|H]; [now left|].
      destruct (IH _ H) as [->|[? ?]]; auto.
  - destruct H as [<-|H]; [right; auto|].
    destruct (IH _ H) as [->|[? ?]]; auto.
Qed.

Lemma sub_spaces_no_run (s : Py.str) b : no_run b (App.sub_spaces b s) = true.
Proof.
  revert b. induction s as [|c r IH]; intros b; simpl; [reflexivity|].
  destruct (Py.isspace c) eqn:E.
  - destruct b; [apply IH|].
    simpl. change (Py.isspace 32) with true. simpl. apply IH.
  - simpl. rewrite E. apply IH.
Qed.

Lemma no_run_adjacent (s : Py.str) p l1 a b l2 :
  no_run p s = true -> s = l1 ++ a :: b :: l2 ->
  ~ (Py.isspace a = true /\ Py.isspace b = true).
Proof.
  revert s p. induction l1 as [|x l1 IH]; intros s p H -> [Ha Hb]; simpl in H.
  - rewrite Ha, Hb in H. simpl in H. rewrite andb_false_r in H. discriminate.
  - destruct (Py.isspace x).
    + apply andb_true_iff in H as [_ H]. eapply IH; eauto.
    + eapply IH; eauto.
Qed.

Lemma is_unsafe_false (c : N) :
  App.is_unsafe c = false ->
  (c <> 10 /\ c <> 13 /\ c <> 9 /\ c <> 92 /\ c <> 34)%N.
Proof.
  unfold App.is_unsafe. rewrite !orb_false_iff, !N.eqb_neq. tauto.
Qed.

(** C8. For every input value, [clean_text] returns a string without
    newline, carriage return, tab, backslash or double quote, without two
    adjacent whitespace characters, and without leading or trailing
    whitespace; an input that is not a string gives the empty string. *)
Theorem clean_text_safe (text : Py.value) :
  let out := App.clean_text text in
  (forall c, In c out ->
     (c <> 10 /\ c <> 13 /\ c <> 9 /\ c <> 92 /\ c <> 34)%N)
  /\ (forall l1 a b l2, out = l1 ++ a :: b :: l2 ->
        ~ (Py.isspace a = true /\ Py.isspace b = true))
  /\ (forall c r, out = c :: r -> Py.isspace c = false)
  /\ (forall r c, out = r ++ [c] -> Py.isspace c = false)
  /\ (Py.is_str text = false -> out = []).
Proof.
  destruct text as [| b | q | s]; simpl;
    try (split; [contradiction|];
         split; [intros l1 ? ? ? H; now destruct l1|];
         split; [discriminate|];
         split; [intros r ? H; now destruct r | reflexivity]).
  set (w := App.sub_spaces false (App.sub_unsafe s)).
  destruct (strip_infix w) as (pre & post & Hw).
  split; [|split; [|split; [|split]]].
  - intros c Hc.
    assert (In c w) as Hin.
    { rewrite Hw. apply in_or_app. right. apply in_or_app. now left. }
    apply sub_spaces_chars in Hin as [-> | [Hin _]].
    + repeat split; discriminate.
    + apply is_unsafe_false. eapply sub_unsafe_chars; eauto.
  - intros l1 a b l2 Hout.
    apply (no_run_adjacent w false (pre ++ l1) a b (l2 ++ post)).
    + apply sub_spaces_no_run.
    + rewrite Hw, Hout. now rewrite <- !app_assoc.
  - intros c r. apply strip_head.
  - intros r c. apply rstrip_last.
  - discriminate.
Qed.

Lemma clean_text_safe_witness : App.clean_text Py.VNone = [].
Proof.
  apply (proj2 (proj2 (proj2 (proj2 (clean_text_safe Py.VNone))))).
  reflexivity.
Defined.

(* ===================================================================== *)
(** * Rating ingestion                                                    *)
(* ===================================================================== *)

Lemma Qc_eq_bool_iff (x y : Qc) : Qc_eq_bool x y = true <-> x = y.
Proof.
  unfold Qc_eq_bool. destruct (Qcanon.Qc_eq_dec x y); split; congruence.
Qed.

Lemma eqb_class (a b : Py.value) :
  Py.eqb a b = true <-> (eq_class a = eq_class b /\ eq_class a <> None).
Proof.
  destruct a as [| x | x | x], b as [| y | y | y]; simpl;
    rewrite ?Qc_eq_bool_iff, ?bool_decide_eq_true;
    split; try discriminate; try (intros [? ?]; congruence);
    try (intros ->; split; congruence).
Qed.

Lemma eqb_trans (a b c : Py.value) :
  Py.eqb a b = true -> Py.eqb b c = true -> Py.eqb a c = true.
Proof.
  rewrite !eqb_class. intros [-> _] [-> H]. now split.
Qed.

Lemma eqb_sym (a b : Py.value) : Py.eqb a b = true -> Py.eqb b a = true.
Proof.
  rewrite !eqb_class. intros [E H]. split; congruence.
Qed.

Lemma eqb_refl_truthy (a : Py.value) : Py.truthy a = true -> Py.eqb a a = true.
Proof.
  intros H. apply eqb_class. split; [reflexivity|].
  destruct a; simpl in *; congruence.
Qed.

Lemma same_key_trans u i u' i' row :
  Data.same_key u' i' row = true ->
  Py.eqb u u' = true -> Py.eqb i i' = true ->
  Data.same_key u i row = true.
Proof.
  unfold Data.same_key. rewrite !andb_true_iff.
  intros [R1 R2] E1 E2. split.
  - eapply eqb_trans; [exact R1 | now apply eqb_sym].
  - eapply eqb_trans; [exact R2 | now apply eqb_sym].
Qed.

Lemma filter_nil_existsb {A} (f : A -> bool) (l : list A) :
  existsb f l = false -> List.filter f l = [].
Proof.
  induction l as [|x l IH]; simpl; [reflexivity|].
  destruct (f x); simpl; [discriminate | exact IH].
Qed.

Lemma overwrite_same_key u i r now u' i' row :
  Data.same_key u' i' (App.overwrite u i r now row) = Data.same_key u' i' row.
Proof.
  unfold App.overwrite. now destruct (Data.same_key u i row).
Qed.

Lemma drop_duplicates_incl rows row :
  In row (MovieLens.drop_duplicates rows) -> In row rows.
Proof.
  induction rows as [|x l IH]; simpl; [auto|].
  destruct (existsb _ l); simpl; intuition.
Qed.

Lemma drop_duplicates_keeps_last l1 r l2 :
  existsb (Data.dup_key r) l2 = false ->
  In r (MovieLens.drop_duplicates (l1 ++ r :: l2)).
Proof.
  intros H. induction l1 as [|x l1 IH]; simpl.
  - rewrite H. now left.
  - destruct (existsb (Data.dup_key x) _); [exact IH | now right].
Qed.















Lemma frame_ok_nil : frame_ok [].
Proof. split; [reflexivity | constructor]. Qed.

Lemma initial_world_store_ok : store_ok System.initial_world.
Proof. split; apply frame_ok_nil. Qed.














(** C9. A rating request whose user_id, item_id or rating is present but
    falsy is answered with status 400 and the message of a missing
    parameter, exactly as the request without that field is, and neither the
    frame in memory nor the file changes. *)
Theorem api_add_rating_rejects_falsy st fs data now (k : string) (v : Py.value) :
  In k ["user_id"; "item_id"; "rating"]%string ->
  data !! k = Some v ->
  Py.truthy v = false ->
  App.api_add_rating st fs data now
  = ((App.BError "Eksik parametreler", 400%Z), st, fs)
  /\ App.api_add_rating st fs (delete k data) now
     = App.api_add_rating st fs data now.
Proof.
  intros Hk Hv Hfalsy.
  assert (forall d, Py.truthy (App.get d k) = false ->
            App.api_add_rating st fs d now
            = ((App.BError "Eksik parametreler", 400%Z), st, fs)) as H.
  { intros d Hd. unfold App.api_add_rating, Py.all. simpl forallb.
    destruct Hk as [<- | [<- | [<- | []]]]; rewrite Hd;
      rewrite ?andb_false_r, ?andb_false_l; reflexivity. }
  rewrite (H data), (H (delete k data)); [auto | |].
  - unfold App.get. now rewrite lookup_delete_eq.
  - unfold App.get. now rewrite Hv.
Qed.

Lemma api_add_rating_rejects_falsy_witness :
  App.api_add_rating App.initial_state (Data.Files None None) (sample_rating 0) (Q2Qc 100)
  = ((App.BError "Eksik parametreler", 400%Z),
     App.initial_state, Data.Files None None).
Proof.
  apply (api_add_rating_rejects_falsy App.initial_state (Data.Files None None)
           (sample_rating 0) (Q2Qc 100) "rating"%string (Py.VInt 0)).
  - simpl. auto.
  - reflexivity.
  - reflexivity.
Defined.

(* ===================================================================== *)
(** * The recommendation endpoints                                        *)
(* ===================================================================== *)

(** C1, as stated, fails: with only the hybrid model loaded, a request for
    an unrecognized strategy and a request for the collaborative strategy,
    whose model is absent, are both answered with status 200 from the hybrid
    model. *)
Lemma api_recommendations_substitutes_hybrid :
  recognized "trending" = false
  /\ App.api_recommendations hybrid_only 1 None (Some "trending"%string)
     = (App.BRecommendations 1 "trending" [App.Entry 7 1 [] [] [] []] 1, 200%Z)
  /\ named_model_loaded hybrid_only "collaborative" = false
  /\ App.api_recommendations hybrid_only 1 None (Some "collaborative"%string)
     = (App.BRecommendations 1 "collaborative" [App.Entry 7 1 [] [] [] []] 1, 200%Z)
  /\ ~ (forall st user_id limit strategy,
          recognized strategy = false \/ named_model_loaded st strategy = false ->
          App.is_error (App.api_recommendations st user_id limit (Some strategy)) = true).
Proof.
  repeat split.
  intros H.
  specialize (H hybrid_only 1%Z None "trending"%string (or_introl eq_refl)).
  discriminate H.
Qed.

(** C1, amended. The collaborative model answers when the strategy is
    collaborative and that model is loaded, the content-based model when the
    strategy is content_based and that model is loaded; every other request
    (the hybrid strategy, an unrecognized name, a named strategy whose model
    is absent) is answered by the hybrid model when it is loaded.  An error
    is reported when the model so selected is absent, and when it raises. *)
Theorem api_recommendations_selection (st : App.state) (user_id : Z)
    (limit_arg : option Z) (strategy_arg : option string) :
  let limit := default 10%Z limit_arg in
  let strategy := default "hybrid"%string strategy_arg in
  let resp := App.api_recommendations st user_id limit_arg strategy_arg in
  (forall cf, strategy = "collaborative"%string -> App.cf_model st = Some cf ->
     resp = App.respond_recommendations st user_id strategy
              (App.cf_recommend cf user_id limit))
  /\ (forall cb, strategy = "content_based"%string -> App.cb_model st = Some cb ->
        resp = App.respond_recommendations st user_id strategy
                 (App.cb_recommend_for_user cb user_id limit (App.ratings_df st)))
  /\ ((strategy = "collaborative"%string -> App.cf_model st = None) ->
      (strategy = "content_based"%string -> App.cb_model st = None) ->
      resp = match App.hybrid_model st with
             | Some h =>
                 App.respond_recommendations st user_id strategy
                   (App.hy_recommend h user_id limit (App.ratings_df st))
             | None => (App.BError "Model yüklenmedi", 500%Z)
             end)
  /\ (forall answer,
        App.is_error (App.respond_recommendations st user_id strategy answer) = true
        <-> exists msg, answer = Py.Raise msg).
Proof.
  intros limit strategy resp. subst resp. unfold App.api_recommendations.
  fold limit strategy.
  split; [|split; [|split]].
  - intros cf -> ->. reflexivity.
  - intros cb E ->. rewrite E. reflexivity.
  - intros Hcf Hcb.
    destruct (String.eqb_spec strategy "collaborative") as [E|_].
    + rewrite (Hcf E).
      destruct (String.eqb_spec strategy "content_based") as [E'|_].
      * rewrite (Hcb E'). now destruct (App.hybrid_model st).
      * now destruct (App.hybrid_model st).
    + destruct (String.eqb_spec strategy "content_based") as [E'|_].
      * rewrite (Hcb E'). now destruct (App.hybrid_model st).
      * now destruct (App.hybrid_model st).
  - intros [l | msg]; simpl; split; try discriminate; eauto.
    intros [? ?]. discriminate.
Qed.

Lemma api_recommendations_selection_witness :
  App.api_recommendations hybrid_only 1 None (Some "trending"%string)
  = App.respond_recommendations hybrid_only 1 "trending" (Py.Ok [(7%Z, 1%Q)]).
Proof.
  apply (proj1 (proj2 (proj2
           (api_recommendations_selection hybrid_only 1 None (Some "trending"%string))))).
  - discriminate.
  - discriminate.
Defined.

(** C6. [get_ml_recommendations] never raises; it returns the empty
    sequence when no model is loaded and when the model it calls raises, and
    so for a user the model answers with nothing or with an exception. *)
Theorem get_ml_recommendations_never_raises (st : App.state) (user_id n : Z) :
  let answer := App.get_ml_recommendations st user_id n in
  (exists l, answer = Py.Ok l)
  /\ (App.hybrid_model st = None -> App.cb_model st = None -> answer = Py.Ok [])
  /\ (forall h,
        App.hybrid_model st = Some h ->
        (App.hy_recommend h user_id n (App.ratings_df st) = Py.Ok []
         \/ exists msg, App.hy_recommend h user_id n (App.ratings_df st) = Py.Raise msg) ->
        answer = Py.Ok [])
  /\ (forall cb,
        App.hybrid_model st = None -> App.cb_model st = Some cb ->
        (App.cb_recommend_for_user cb user_id n (App.ratings_df st) = Py.Ok []
         \/ exists msg,
             App.cb_recommend_for_user cb user_id n (App.ratings_df st) = Py.Raise msg) ->
        answer = Py.Ok []).
Proof.
  intros answer. subst answer. unfold App.get_ml_recommendations.
  split; [|split; [|split]].
  - destruct (App.hybrid_model st) as [h|].
    + destruct (App.hy_recommend h user_id n (App.ratings_df st)); simpl; eauto.
    + destruct (App.cb_model st) as [cb|]; simpl; eauto.
      destruct (App.cb_recommend_for_user cb user_id n (App.ratings_df st)); simpl; eauto.
  - intros -> ->. reflexivity.
  - intros h -> [-> | [msg ->]]; reflexivity.
  - intros cb -> -> [-> | [msg ->]]; reflexivity.
Qed.

Lemma get_ml_recommendations_never_raises_witness :
  App.get_ml_recommendations strict_content_based 99 10 = Py.Ok [].
Proof.
  apply (proj2 (proj2 (proj2
           (get_ml_recommendations_never_raises strict_content_based 99 10))) _
           eq_refl eq_refl).
  right. exists "unknown user"%string. reflexivity.
Defined.

(* ===================================================================== *)
(** * Similar items                                                       *)
(* ===================================================================== *)

Lemma take_In {A} (n : nat) (l : list A) x : In x (take n l) -> In x l.
Proof.
  revert n. induction l as [|a l IH]; intros [|n]; simpl; try tauto.
  intros [->|H]; [now left | right; eauto].
Qed.

Lemma take_length_le {A} (n : nat) (l : list A) : (length (take n l) <= n)%nat.
Proof. rewrite length_take. lia. Qed.

Lemma take_sorted n row : non_increasing row -> non_increasing (take n row).
Proof.
  unfold non_increasing. revert n.
  induction row as [|p rest IH]; intros [|n] H; simpl; try constructor.
  - inversion H; subst. now apply IH.
  - inversion H as [|? ? _ Hp]; subst. rewrite List.Forall_forall in *.
    intros x Hx. apply Hp. now apply take_In in Hx.
Qed.

Lemma insert_desc_In p row x :
  In x (ContentBased.insert_desc p row) <-> x = p \/ In x row.
Proof.
  induction row as [|q rest IH]; simpl.
  - intuition.
  - destruct (Qle_bool (snd q) (snd p)); simpl; [intuition|].
    rewrite IH. intuition.
Qed.

Lemma insert_desc_sorted p row :
  non_increasing row -> non_increasing (ContentBased.insert_desc p row).
Proof.
  unfold non_increasing. induction row as [|q rest IH]; simpl; intros H.
  - constructor; [constructor | constructor].
  - inversion H as [|? ? Hrest Hq]; subst.
    destruct (Qle_bool (snd q) (snd p)) eqn:E.
    + apply Qle_bool_iff in E. constructor; [exact H|].
      constructor; [exact E|].
      rewrite List.Forall_forall in *. intros a Ha.
      apply Qle_trans with (snd q); [now apply Hq | exact E].
    + constructor; [now apply IH|].
      apply List.Forall_forall. intros x Hx. apply insert_desc_In in Hx as [->|Hx].
      * apply Qlt_le_weak, Qnot_le_lt. intros Hle. apply Qle_bool_iff in Hle. congruence.
      * rewrite List.Forall_forall in Hq. now apply Hq.
Qed.

Lemma sort_desc_In row x : In x (ContentBased.sort_desc row) <-> In x row.
Proof.
  unfold ContentBased.sort_desc. induction row as [|p rest IH]; simpl; [tauto|].
  rewrite insert_desc_In, IH. intuition.
Qed.

Lemma sort_desc_sorted row : non_increasing (ContentBased.sort_desc row).
Proof.
  unfold ContentBased.sort_desc. induction row as [|p rest IH]; simpl.
  - constructor.
  - now apply insert_desc_sorted.
Qed.

Lemma neighbours_sorted similarity K ids i :
  non_increasing (ContentBased.neighbours similarity K ids i).
Proof. apply take_sorted, sort_desc_sorted. Qed.

Lemma neighbours_exclude_self similarity K ids i :
  ~ In i (map fst (ContentBased.neighbours similarity K ids i)).
Proof.
  unfold ContentBased.neighbours. intros H.
  apply in_map_iff in H as ([j s] & Hj & Hin). simpl in Hj. subst j.
  apply take_In, sort_desc_In, in_map_iff in Hin as (j & [= -> _] & Hin).
  apply filter_In in Hin as [_ Hne]. rewrite Z.eqb_refl in Hne. discriminate.
Qed.

Lemma train_lookup_known similarity K catalog i :
  In i (map Data.item_id catalog) ->
  ContentBased.train similarity K catalog !! i
  = Some (ContentBased.neighbours similarity K (map Data.item_id catalog) i).
Proof.
  intros Hin. unfold ContentBased.train.
  set (ids := map Data.item_id catalog) in *.
  set (l := map (fun i => (i, ContentBased.neighbours similarity K ids i)) ids).
  destruct (list_to_map l !! i) as [row|] eqn:E.
  - apply elem_of_list_to_map_2, list_elem_of_In in E.
    apply in_map_iff in E as (j & [= -> <-] & _). reflexivity.
  - apply not_elem_of_list_to_map_2 in E. exfalso. apply E.
    apply list_elem_of_In. change (In i (map fst l)). unfold l. rewrite map_map. simpl. now rewrite map_id.
Qed.

Lemma train_lookup_unknown similarity K catalog i :
  ~ In i (map Data.item_id catalog) ->
  ContentBased.train similarity K catalog !! i = None.
Proof.
  intros Hin. unfold ContentBased.train.
  apply not_elem_of_list_to_map_1. intros H. apply Hin.
  apply list_elem_of_In in H.
  change (In i (map fst (map (fun i => (i, ContentBased.neighbours similarity K
                                             (map Data.item_id catalog) i))
                           (map Data.item_id catalog)))) in H.
  rewrite map_map in H. simpl in H. now rewrite map_id in H.
Qed.

(** C7. For a trained content-based model and an item of the trained
    catalog, [get_similar_items(item_id, n)] returns at most n entries, none
    of them the item itself, ordered by similarity, highest first, and the
    endpoint [api_similar_items] lists these entries in this order; for an
    item absent from the trained catalog the call fails with NotFound, which
    the endpoint reports as an error. *)
Theorem get_similar_items_spec (similarity : Z -> Z -> Q) (K : nat)
    (catalog : list Data.item) recommend_for_user (item_id : Z) (n : nat) :
  let index := ContentBased.train similarity K catalog in
  let served (st : App.state) :=
    App.cb_model st = Some (ContentBased.model index recommend_for_user) in
  (In item_id (map Data.item_id catalog) ->
   exists row,
     ContentBased.get_similar_items index item_id n = Py.Ok row
     /\ (length row <= n)%nat
     /\ ~ In item_id (map fst row)
     /\ non_increasing row
     /\ forall st, served st ->
          App.api_similar_items st item_id (Some (Z.of_nat n))
          = (App.BSimilar item_id (map (App.make_entry st) row), 200%Z))
  /\ (~ In item_id (map Data.item_id catalog) ->
      ContentBased.get_similar_items index item_id n = Py.Raise "NotFound"
      /\ forall st, served st ->
           App.api_similar_items st item_id (Some (Z.of_nat n))
           = (App.BError "NotFound", 500%Z)).
Proof.
  intros index served. split.
  - intros Hin.
    exists (take n (ContentBased.neighbours similarity K (map Data.item_id catalog) item_id)).
    assert (ContentBased.get_similar_items index item_id n
            = Py.Ok (take n (ContentBased.neighbours similarity K
                               (map Data.item_id catalog) item_id))) as Hget.
    { unfold ContentBased.get_similar_items, index.
      now rewrite train_lookup_known. }
    split; [exact Hget|]. split; [apply take_length_le|].
    split; [|split].
    + intros H. apply (neighbours_exclude_self similarity K (map Data.item_id catalog) item_id).
      apply in_map_iff in H as (p & Hp & Hin'). apply in_map_iff.
      exists p. split; [exact Hp | now apply take_In in Hin'].
    + apply take_sorted, neighbours_sorted.
    + intros st Hst. unfold App.api_similar_items. rewrite Hst. simpl.
      rewrite Nat2Z.id. now rewrite Hget.
  - intros Hnot.
    assert (ContentBased.get_similar_items index item_id n = Py.Raise "NotFound") as Hget.
    { unfold ContentBased.get_similar_items, index.
      now rewrite train_lookup_unknown. }
    split; [exact Hget|].
    intros st Hst. unfold App.api_similar_items. rewrite Hst. simpl.
    rewrite Nat2Z.id. now rewrite Hget.
Qed.

Lemma get_similar_items_spec_witness :
  exists row,
    ContentBased.get_similar_items
      (ContentBased.train closeness 2 [bare_item 1; bare_item 2; bare_item 5]) 1 1
    = Py.Ok row
    /\ (length row <= 1)%nat /\ ~ In 1%Z (map fst row) /\ non_increasing row.
Proof.
  destruct (proj1 (get_similar_items_spec closeness 2
                     [bare_item 1; bare_item 2; bare_item 5]
                     (fun _ _ _ => Py.Ok []) 1 1))
    as (row & Hget & Hlen & Hself & Hsorted & _).
  - simpl. auto.
  - exists row. auto.
Defined.

(* ===================================================================== *)
(** * Normalization of the catalog                                        *)
(* ===================================================================== *)

Lemma column_max_fold (col : list (option Q)) (acc : option Q) (m : Q) :
  fold_left
    (fun acc x =>
       match acc, x with
       | None, _ => x
       | Some _, None => acc
       | Some a, Some b => Some (if Qle_bool a b then b else a)
       end) col acc = Some m ->
  (forall a, acc = Some a -> (a <= m)%Q)
  /\ (forall x, In (Some x) col -> (x <= m)%Q).
Proof.
  revert acc. induction col as [|c col IH]; simpl; intros acc H.
  - split; [|contradiction]. intros a ->. injection H as ->. apply Qle_refl.
  - apply IH in H as [Hacc Hcol]. split.
    + intros a ->. destruct c as [b|]; [|now apply Hacc].
      specialize (Hacc _ eq_refl). destruct (Qle_bool a b) eqn:E; [|exact Hacc].
      apply Qle_bool_iff in E. now apply Qle_trans with b.
    + intros x [-> | Hx]; [|now apply Hcol].
      destruct acc as [a|]; [|now apply Hacc].
      specialize (Hacc _ eq_refl). destruct (Qle_bool a x) eqn:E; [exact Hacc|].
      apply Qle_trans with a; [|exact Hacc].
      apply Qlt_le_weak, Qnot_le_lt. intros Hle. apply Qle_bool_iff in Hle. congruence.
Qed.

Lemma column_max_upper (col : list (option Q)) (m x : Q) :
  MovieLens.column_max col = Some m -> In (Some x) col -> (x <= m)%Q.
Proof.
  unfold MovieLens.column_max. intros H. apply column_max_fold in H as [_ H]. apply H.
Qed.

Lemma column_max_fold_member (col : list (option Q)) (acc : option Q) (m : Q) :
  fold_left
    (fun acc x =>
       match acc, x with
       | None, _ => x
       | Some _, None => acc
       | Some a, Some b => Some (if Qle_bool a b then b else a)
       end) col acc = Some m ->
  acc = Some m \/ In (Some m) col.
Proof.
  revert acc. induction col as [|c col IH]; simpl; intros acc H; [now left|].
  apply IH in H as [H | H]; [|now right; right].
  destruct acc as [a|]; [|right; left; exact H].
  destruct c as [b|]; [|now left].
  destruct (Qle_bool a b); [right; left; exact H | now left].
Qed.

Lemma column_max_fold_none (col : list (option Q)) (acc : option Q) :
  fold_left
    (fun acc x =>
       match acc, x with
       | None, _ => x
       | Some _, None => acc
       | Some a, Some b => Some (if Qle_bool a b then b else a)
       end) col acc = None ->
  acc = None /\ forall x, In x col -> x = None.
Proof.
  revert acc. induction col as [|c col IH]; simpl; intros acc H; [now split|].
  apply IH in H as [H Hcol].
  destruct acc as [a|]; [destruct c; discriminate|].
  split; [reflexivity|]. intros x [<- | Hx]; [exact H | now apply Hcol].
Qed.

Lemma column_max_member (col : list (option Q)) (m : Q) :
  MovieLens.column_max col = Some m -> In (Some m) col.
Proof.
  intros H. apply column_max_fold_member in H as [H | H]; [discriminate | exact H].
Qed.

Lemma column_max_is_max (col : list (option Q)) (m : Q) :
  is_max col m ->
  exists m', MovieLens.column_max col = Some m' /\ is_max col m' /\ (m <= m')%Q.
Proof.
  intros [Hin _]. destruct (MovieLens.column_max col) as [m'|] eqn:E.
  - exists m'. split; [reflexivity|]. split.
    + split; [now apply column_max_member|]. intros x. now apply column_max_upper.
    + now apply (column_max_upper col).
  - apply column_max_fold_none in E as [_ E]. apply E in Hin. discriminate.
Qed.

Lemma Qlt_bool_of_lt (x y : Q) : (x < y)%Q -> MovieLens.Qlt_bool x y = true.
Proof.
  unfold MovieLens.Qlt_bool. intros H. destruct (Qle_bool y x) eqn:E; [|reflexivity].
  apply Qle_bool_iff in E. exfalso. now apply (Qlt_not_le _ _ H).
Qed.

Section Normalize.
Variable float_div : Q -> Q -> Q.

Lemma normalize_as_map (combined : list Data.item) :
  MovieLens.normalize float_div combined
  = map (normalize_item float_div (MovieLens.column_max (map Data.popularity combined))
           (MovieLens.column_max (map Data.vote_count combined))) combined.
Proof.
  unfold MovieLens.normalize, normalize_item.
  set (pm := MovieLens.column_max (map Data.popularity combined)).
  set (step1 := match pm with
                | Some max_pop =>
                    if MovieLens.Qlt_bool 0 max_pop
                    then map (MovieLens.set_popularity_norm float_div max_pop) combined
                    else combined
                | None => combined
                end).
  assert (step1 = map (fun it => match pm with
                                 | Some m => if MovieLens.Qlt_bool 0 m
                                             then MovieLens.set_popularity_norm float_div m it
                                             else it
                                 | None => it
                                 end) combined) as E1.
  { unfold step1. destruct pm as [m|]; [destruct (MovieLens.Qlt_bool 0 m)|];
      try reflexivity; now rewrite map_id. }
  assert (map Data.vote_count (map (MovieLens.set_vote_average_norm float_div) step1)
          = map Data.vote_count combined) as E2.
  { rewrite E1, !map_map. apply map_ext. intros it.
    destruct pm as [m|]; [destruct (MovieLens.Qlt_bool 0 m)|]; reflexivity. }
  rewrite E2. clear E2. rewrite E1, map_map.
  destruct (MovieLens.column_max (map Data.vote_count combined)) as [vm|];
    [destruct (MovieLens.Qlt_bool 0 vm)|]; rewrite ?map_map; reflexivity.
Qed.

Lemma normalize_item_raw pm vm it :
  Data.item_id (normalize_item float_div pm vm it) = Data.item_id it
  /\ Data.popularity (normalize_item float_div pm vm it) = Data.popularity it
  /\ Data.vote_average (normalize_item float_div pm vm it) = Data.vote_average it
  /\ Data.vote_count (normalize_item float_div pm vm it) = Data.vote_count it.
Proof.
  unfold normalize_item.
  destruct pm as [m|]; [destruct (MovieLens.Qlt_bool 0 m)|];
    (destruct vm as [v|]; [destruct (MovieLens.Qlt_bool 0 v)|]); simpl; auto.
Qed.

Lemma normalize_ids (combined : list Data.item) :
  map Data.item_id (MovieLens.normalize float_div combined) = map Data.item_id combined.
Proof.
  rewrite normalize_as_map, map_map. apply map_ext. intros it.
  apply normalize_item_raw.
Qed.

Lemma normalize_columns (combined : list Data.item) :
  map Data.popularity (MovieLens.normalize float_div combined)
  = map Data.popularity combined
  /\ map Data.vote_count (MovieLens.normalize float_div combined)
     = map Data.vote_count combined.
Proof.
  rewrite normalize_as_map, !map_map.
  split; apply map_ext; intros it; apply normalize_item_raw.
Qed.

Lemma unit_div (p m : Q) :
  rounds_quotient float_div -> (0 <= p)%Q -> (p <= m)%Q -> (0 < m)%Q ->
  in_unit (Some (float_div p m)).
Proof.
  intros (Hmono & Hone & Hzero) H0 Hm Hpos.
  exists (float_div p m). split; [reflexivity|]. split.
  - rewrite <- (Hzero m Hpos). now apply Hmono.
  - rewrite <- (Hone m Hpos). now apply Hmono.
Qed.

Lemma normalize_item_popularity_norm m vm it :
  (0 < m)%Q ->
  Data.popularity_norm (normalize_item float_div (Some m) vm it)
  = option_map (fun p => float_div p m) (Data.popularity it).
Proof.
  intros Hpos. unfold normalize_item. rewrite (Qlt_bool_of_lt _ _ Hpos).
  destruct vm as [v|]; [destruct (MovieLens.Qlt_bool 0 v)|]; reflexivity.
Qed.

Lemma normalize_item_vote_count_norm pm m it :
  (0 < m)%Q ->
  Data.vote_count_norm (normalize_item float_div pm (Some m) it)
  = option_map (fun v => float_div v m) (Data.vote_count it).
Proof.
  intros Hpos. unfold normalize_item. rewrite (Qlt_bool_of_lt _ _ Hpos).
  destruct pm as [q|]; [destruct (MovieLens.Qlt_bool 0 q)|]; reflexivity.
Qed.

Lemma normalize_item_vote_average_norm pm vm it :
  Data.vote_average_norm (normalize_item float_div pm vm it)
  = option_map (fun v => float_div v 10%Q) (Data.vote_average it).
Proof.
  unfold normalize_item.
  destruct pm as [q|]; [destruct (MovieLens.Qlt_bool 0 q)|];
    (destruct vm as [w|]; [destruct (MovieLens.Qlt_bool 0 w)|]); reflexivity.
Qed.

Lemma normalize_spec (combined : list Data.item) (it : Data.item) :
  In it (MovieLens.normalize float_div combined) ->
  normalized_in float_div (MovieLens.normalize float_div combined) it.
Proof.
  intros Hin. unfold normalized_in, scaled_by_max.
  destruct (normalize_columns combined) as [-> ->].
  rewrite normalize_as_map in Hin.
  apply in_map_iff in Hin as (it0 & <- & Hin0).
  set (pm := MovieLens.column_max (map Data.popularity combined)).
  set (vm := MovieLens.column_max (map Data.vote_count combined)).
  destruct (normalize_item_raw pm vm it0) as (_ & Hp & Ha & Hv).
  rewrite Hp, Ha, Hv.
  split; [|split].
  - intros m Hm Hpos. destruct (column_max_is_max _ _ Hm) as (m' & Hcm & Hm' & Hle).
    exists m'. split; [exact Hm'|]. unfold pm. rewrite Hcm.
    apply normalize_item_popularity_norm. now apply Qlt_le_trans with m.
  - intros m Hm Hpos. destruct (column_max_is_max _ _ Hm) as (m' & Hcm & Hm' & Hle).
    exists m'. split; [exact Hm'|]. unfold vm. rewrite Hcm.
    apply normalize_item_vote_count_norm. now apply Qlt_le_trans with m.
  - apply normalize_item_vote_average_norm.
Qed.

Lemma normalize_in_unit (combined : list Data.item) (it : Data.item) :
  rounds_quotient float_div ->
  In it (MovieLens.normalize float_div combined) ->
  normalized_in_unit (MovieLens.normalize float_div combined) it.
Proof.
  intros Hdiv Hin. unfold normalized_in_unit.
  destruct (normalize_columns combined) as [-> ->].
  rewrite normalize_as_map in Hin.
  apply in_map_iff in Hin as (it0 & <- & Hin0).
  set (pm := MovieLens.column_max (map Data.popularity combined)).
  set (vm := MovieLens.column_max (map Data.vote_count combined)).
  destruct (normalize_item_raw pm vm it0) as (_ & Hp & Ha & Hv).
  rewrite Hp, Ha, Hv.
  split; [|split].
  - intros m p Hm Hpos Hp0 Hnn.
    assert (In (Some p) (map Data.popularity combined)) as Hcol
      by (rewrite <- Hp0; now apply in_map).
    split; [now apply Hm|].
    destruct (column_max_is_max _ _ Hm) as (m' & Hcm & Hm' & Hle).
    unfold pm. rewrite Hcm, normalize_item_popularity_norm, Hp0;
      [|now apply Qlt_le_trans with m].
    apply unit_div; [exact Hdiv | exact Hnn | now apply Hm' |].
    now apply Qlt_le_trans with m.
  - intros m v Hm Hpos Hv0 Hnn.
    assert (In (Some v) (map Data.vote_count combined)) as Hcol
      by (rewrite <- Hv0; now apply in_map).
    split; [now apply Hm|].
    destruct (column_max_is_max _ _ Hm) as (m' & Hcm & Hm' & Hle).
    unfold vm. rewrite Hcm, normalize_item_vote_count_norm, Hv0;
      [|now apply Qlt_le_trans with m].
    apply unit_div; [exact Hdiv | exact Hnn | now apply Hm' |].
    now apply Qlt_le_trans with m.
  - intros v Hv0 Hnn Hle. rewrite normalize_item_vote_average_norm, Hv0.
    apply unit_div; [exact Hdiv | exact Hnn | exact Hle | reflexivity].
Qed.

End Normalize.

Lemma Qdiv_rounds_quotient : rounds_quotient Qdiv.
Proof.
  split; [|split].
  - intros p q m Hm Hpq. unfold Qdiv. apply Qmult_le_compat_r; [exact Hpq|].
    now apply Qinv_le_0_compat, Qlt_le_weak.
  - intros m Hm. apply Qmult_inv_r. intros E. rewrite E in Hm.
    now apply (Qlt_irrefl 0).
  - intros m Hm. unfold Qdiv. apply Qmult_0_l.
Qed.

(** C4. In the catalog that the integration saves, every item has
    popularity_norm equal to its popularity divided by the largest
    popularity observed in the combined catalog, when that maximum is
    positive, vote_count_norm likewise from the largest vote count, and
    vote_average_norm equal to vote_average divided by 10.  The division is
    that of float64, [float_div]; as it rounds the quotient, a stat that is
    not negative and does not exceed its bound has its normalized
    counterpart in the unit interval. *)
Theorem integrate_items_normalized (TMDB_API_KEY : option Py.str)
    (requests_get : Z -> MovieLens.http) (float_div : Q -> Q -> Q)
    existing movies_df links_df
    enrich_from_tmdb max_movies (saved returned : list Data.item) :
  MovieLens.integrate_items TMDB_API_KEY requests_get float_div existing movies_df
    links_df enrich_from_tmdb max_movies = (Some saved, returned) ->
  returned = saved
  /\ forall it, In it saved ->
       normalized_in float_div saved it
       /\ (rounds_quotient float_div -> normalized_in_unit saved it).
Proof.
  unfold MovieLens.integrate_items.
  destruct (MovieLens.integrate_loop _ _ _ _ _ _ _).1 as [|new rest]; [discriminate|].
  intros [= <- <-]. split; [reflexivity|].
  intros it Hin. split; [now apply normalize_spec|].
  intros Hdiv. now apply normalize_in_unit.
Qed.

Lemma integrate_items_normalized_witness :
  exists saved,
    MovieLens.integrate_items None offline Qdiv (Some two_item_catalog)
      [toy_story] [MovieLens.LinkRow 1 (Some 862%Z)] false None
    = (Some saved, saved)
    /\ map Data.popularity_norm saved = [Some (4 / 8)%Q; Some (8 / 8)%Q; Some (0 / 8)%Q]
    /\ forall it, In it saved ->
         normalized_in Qdiv saved it /\ normalized_in_unit saved it.
Proof.
  eexists. split; [reflexivity|]. split; [reflexivity|].
  intros it Hin.
  destruct (integrate_items_normalized None offline Qdiv (Some two_item_catalog)
              [toy_story] [MovieLens.LinkRow 1 (Some 862%Z)] false None _ _ eq_refl)
    as [_ H].
  destruct (H it Hin) as [H1 H2].
  split; [exact H1 | apply H2, Qdiv_rounds_quotient].
Defined.

(* ===================================================================== *)
(** * Conversion of the MovieLens ratings                                 *)
(* ===================================================================== *)

Lemma filter_find_unique (links_df : list MovieLens.link_row) (m : Z) :
  NoDup (map MovieLens.l_movieId links_df) ->
  List.filter (fun l => (MovieLens.l_movieId l =? m)%Z) links_df
  = match List.find (fun l => (MovieLens.l_movieId l =? m)%Z) links_df with
    | Some l => [l]
    | None => []
    end.
Proof.
  induction links_df as [|l rest IH]; simpl; [reflexivity|].
  intros H. apply NoDup_cons in H as [Hnot Hrest].
  rewrite list_elem_of_In in Hnot.
  destruct (Z.eqb_spec (MovieLens.l_movieId l) m) as [E|_]; [|now apply IH].
  f_equal. apply filter_nil_existsb.
  destruct (existsb _ rest) eqn:Ex; [|reflexivity].
  apply existsb_exists in Ex as (l' & Hin & Hl'). apply Z.eqb_eq in Hl'.
  exfalso. apply Hnot. rewrite E, <- Hl'. now apply in_map.
Qed.

Lemma wrap64_small (z : Z) : (- 2 ^ 63 <= z < 2 ^ 63)%Z -> MovieLens.wrap64 z = z.
Proof.
  intros H. unfold MovieLens.wrap64. rewrite Z.mod_small; lia.
Qed.

Lemma convert_one (links_df : list MovieLens.link_row) (r : MovieLens.ml_rating) :
  NoDup (map MovieLens.l_movieId links_df) -> user_id_ok r ->
  MovieLens.convert_movielens_ratings [r] links_df = converted_row links_df r.
Proof.
  intros Hlinks Hr.
  unfold MovieLens.convert_movielens_ratings, MovieLens.merge_links, converted_row,
    lookup_tmdb.
  simpl. rewrite app_nil_r, (filter_find_unique _ _ Hlinks).
  destruct (List.find _ links_df) as [l|]; simpl; [|reflexivity].
  destruct (MovieLens.tmdbId l); simpl; [|reflexivity].
  rewrite wrap64_small; [reflexivity|]. unfold user_id_ok in Hr. lia.
Qed.

Lemma convert_app (a b : list MovieLens.ml_rating) links_df :
  MovieLens.convert_movielens_ratings (a ++ b) links_df
  = MovieLens.convert_movielens_ratings a links_df
    ++ MovieLens.convert_movielens_ratings b links_df.
Proof.
  unfold MovieLens.convert_movielens_ratings, MovieLens.merge_links.
  now rewrite !flat_map_app.
Qed.

(** C10. [convert_movielens_ratings] drops exactly the rating rows whose
    movie has no TMDb identifier in the links table and maps every other row
    to (userId + 1000, tmdbId, rating, timestamp); every converted user id is
    above 1000 and so differs from every native user id up to 1000.  The
    links table has one row per movie and the user ids are those of
    MovieLens, positive and within int64 after the offset. *)
Theorem convert_movielens_ratings_spec (ml_ratings_df : list MovieLens.ml_rating)
    (links_df : list MovieLens.link_row) :
  NoDup (map MovieLens.l_movieId links_df) ->
  (forall r, In r ml_ratings_df -> user_id_ok r) ->
  MovieLens.convert_movielens_ratings ml_ratings_df links_df
  = flat_map (converted_row links_df) ml_ratings_df
  /\ (forall r, In r ml_ratings_df ->
        (lookup_tmdb links_df (MovieLens.ml_movieId r) = None ->
         converted_row links_df r = [])
        /\ (forall tmdb, lookup_tmdb links_df (MovieLens.ml_movieId r) = Some tmdb ->
            converted_row links_df r
            = [MovieLens.Converted (MovieLens.userId r + 1000) tmdb
                 (MovieLens.ml_rating_value r) (MovieLens.ml_timestamp r)]))
  /\ (forall c, In c (MovieLens.convert_movielens_ratings ml_ratings_df links_df) ->
        (1000 < MovieLens.c_user_id c)%Z
        /\ forall native, (native <= 1000)%Z -> MovieLens.c_user_id c <> native).
Proof.
  intros Hlinks Husers.
  assert (MovieLens.convert_movielens_ratings ml_ratings_df links_df
          = flat_map (converted_row links_df) ml_ratings_df) as E.
  { induction ml_ratings_df as [|r rest IH]; [reflexivity|].
    change (r :: rest) with ([r] ++ rest). rewrite convert_app. simpl.
    rewrite IH by (intros; apply Husers; now right).
    rewrite convert_one; [reflexivity | exact Hlinks | apply Husers; now left]. }
  split; [exact E|]. split.
  - intros r _. unfold converted_row. split.
    + now intros ->.
    + now intros tmdb ->.
  - intros c Hc. rewrite E in Hc. apply in_flat_map in Hc as (r & Hr & Hc).
    unfold converted_row in Hc.
    destruct (lookup_tmdb links_df (MovieLens.ml_movieId r)); [|contradiction].
    destruct Hc as [<- | []]. simpl.
    specialize (Husers r Hr). unfold user_id_ok in Husers. split; [lia|].
    intros native Hn. lia.
Qed.

Lemma convert_movielens_ratings_spec_witness :
  MovieLens.convert_movielens_ratings
    [MovieLens.MlRating 1 1 (Q2Qc 4) 964982703;
     MovieLens.MlRating 2 3 (Q2Qc 5) 964981247]
    [MovieLens.LinkRow 1 (Some 862%Z); MovieLens.LinkRow 3 None]
  = flat_map
      (converted_row [MovieLens.LinkRow 1 (Some 862%Z); MovieLens.LinkRow 3 None])
      [MovieLens.MlRating 1 1 (Q2Qc 4) 964982703;
       MovieLens.MlRating 2 3 (Q2Qc 5) 964981247].
Proof.
  apply (convert_movielens_ratings_spec
           [MovieLens.MlRating 1 1 (Q2Qc 4) 964982703;
            MovieLens.MlRating 2 3 (Q2Qc 5) 964981247]
           [MovieLens.LinkRow 1 (Some 862%Z); MovieLens.LinkRow 3 None]).
  - simpl. apply NoDup_ListNoDup. repeat constructor; simpl; intuition lia.
  - intros r [<- | [<- | []]]; unfold user_id_ok; simpl; lia.
Defined.

(* ===================================================================== *)
(** * The catalog loop                                                    *)
(* ===================================================================== *)

Section CatalogLoop.

Variable TMDB_API_KEY : option Py.str.
Variable requests_get : Z -> MovieLens.http.
Variable links_df : list MovieLens.link_row.

Lemma create_item_none_unmapped movie_row ids :
  lookup_tmdb links_df (MovieLens.movieId movie_row) = None ->
  MovieLens.create_item_from_movielens movie_row links_df ids = None.
Proof.
  unfold lookup_tmdb, MovieLens.create_item_from_movielens.
  destruct (List.find _ links_df) as [l|]; [|reflexivity].
  now intros ->.
Qed.

Lemma create_item_none_known movie_row (ids : gset Z) tmdb :
  lookup_tmdb links_df (MovieLens.movieId movie_row) = Some tmdb ->
  tmdb ∈ ids ->
  MovieLens.create_item_from_movielens movie_row links_df ids = None.
Proof.
  unfold lookup_tmdb, MovieLens.create_item_from_movielens.
  destruct (List.find _ links_df) as [l|]; [|discriminate].
  intros -> Hin. now rewrite bool_decide_eq_true_2.
Qed.

Lemma create_item_some movie_row (ids : gset Z) item :
  MovieLens.create_item_from_movielens movie_row links_df ids = Some item ->
  lookup_tmdb links_df (MovieLens.movieId movie_row) = Some (Data.item_id item)
  /\ Data.item_id item ∉ ids.
Proof.
  unfold lookup_tmdb, MovieLens.create_item_from_movielens.
  destruct (List.find _ links_df) as [l|]; [|discriminate].
  destruct (MovieLens.tmdbId l) as [t|]; [|discriminate].
  destruct (bool_decide (t ∈ ids)) eqn:E; [discriminate|].
  intros [= <-]. simpl. split; [reflexivity|].
  now apply bool_decide_eq_false in E.
Qed.

Lemma enrich_item_id item tmdb_id :
  Data.item_id (MovieLens.enrich_with_tmdb TMDB_API_KEY requests_get item tmdb_id)
  = Data.item_id item.
Proof.
  unfold MovieLens.enrich_with_tmdb.
  destruct (MovieLens.get_tmdb_movie_details _ _ _) as [d|]; [|reflexivity].
  now destruct (MovieLens.details_truthy d).
Qed.

Lemma integrate_loop_app enrich (xs ys : list MovieLens.movie_row) ids acc :
  MovieLens.integrate_loop TMDB_API_KEY requests_get enrich links_df (xs ++ ys) ids acc
  = let r := MovieLens.integrate_loop TMDB_API_KEY requests_get enrich links_df xs ids acc in
    MovieLens.integrate_loop TMDB_API_KEY requests_get enrich links_df ys (snd r) (fst r).
Proof.
  revert ids acc. induction xs as [|x xs IH]; intros ids acc; simpl; [reflexivity|].
  destruct (MovieLens.create_item_from_movielens x links_df ids); apply IH.
Qed.

(** What the loop adds: items whose identifiers are new, pairwise distinct
    and recorded in the set; every processed movie with a TMDb identifier is
    known afterwards. *)
Lemma integrate_loop_spec enrich (movies : list MovieLens.movie_row) (ids : gset Z) acc :
  exists new,
    MovieLens.integrate_loop TMDB_API_KEY requests_get enrich links_df movies ids acc
    = (acc ++ new, list_to_set (map Data.item_id new) ∪ ids)
    /\ NoDup (map Data.item_id new)
    /\ (forall t, In t (map Data.item_id new) -> t ∉ ids)
    /\ (forall m t, In m movies -> lookup_tmdb links_df (MovieLens.movieId m) = Some t ->
          t ∈ ids \/ In t (map Data.item_id new)).
Proof.
  revert ids acc. induction movies as [|m movies IH]; intros ids acc; simpl.
  - exists []. rewrite app_nil_r. simpl. split; [now rewrite (left_id_L ∅ (∪))|].
    split; [constructor|]. split; [contradiction|]. intros ? ? [].
  - destruct (MovieLens.create_item_from_movielens m links_df ids) as [item|] eqn:E.
    + set (item' := if enrich
                    then MovieLens.enrich_with_tmdb TMDB_API_KEY requests_get item
                           (Data.item_id item)
                    else item).
      assert (Data.item_id item' = Data.item_id item) as Hid.
      { unfold item'. destruct enrich; [apply enrich_item_id | reflexivity]. }
      apply create_item_some in E as [Hlook Hnew].
      destruct (IH ({[Data.item_id item']} ∪ ids) (acc ++ [item']))
        as (new & Hloop & Hnd & Hfresh & Hknown).
      exists (item' :: new). rewrite Hloop, <- app_assoc. simpl.
      split; [|split; [|split]].
      * f_equal. rewrite (assoc_L (∪)). f_equal. apply (comm_L (∪)).
      * apply NoDup_cons. split; [|exact Hnd].
        intros Hin. apply list_elem_of_In in Hin. apply Hfresh in Hin.
        apply Hin, elem_of_union. left. now apply elem_of_singleton.
      * intros t [<- | Ht]; [now rewrite Hid|].
        apply Hfresh in Ht. intros Hin. apply Ht, elem_of_union. now right.
      * intros m' t [<- | Hm'] Ht.
        -- right. left. rewrite Hid. congruence.
        -- destruct (Hknown m' t Hm' Ht) as [H | H]; [|now right; right].
           apply elem_of_union in H as [H | H]; [|now left].
           right. left. apply elem_of_singleton in H. now symmetry.
    + destruct (IH ids acc) as (new & Hloop & Hnd & Hfresh & Hknown).
      exists new. split; [exact Hloop|]. split; [exact Hnd|]. split; [exact Hfresh|].
      intros m' t [<- | Hm'] Ht; [|exact (Hknown m' t Hm' Ht)].
      left. unfold lookup_tmdb, MovieLens.create_item_from_movielens in *.
      destruct (List.find _ links_df) as [l|]; [|discriminate].
      rewrite Ht in E. destruct (bool_decide (t ∈ ids)) eqn:B; [|discriminate].
      now apply bool_decide_eq_true in B.
Qed.

(** A batch whose mapped identifiers are all known adds nothing. *)
Lemma integrate_loop_known enrich (movies : list MovieLens.movie_row) (ids : gset Z) acc :
  (forall m t, In m movies -> lookup_tmdb links_df (MovieLens.movieId m) = Some t ->
     t ∈ ids) ->
  MovieLens.integrate_loop TMDB_API_KEY requests_get enrich links_df movies ids acc
  = (acc, ids).
Proof.
  revert acc. induction movies as [|m movies IH]; intros acc H; simpl; [reflexivity|].
  destruct (lookup_tmdb links_df (MovieLens.movieId m)) as [t|] eqn:E.
  - rewrite (create_item_none_known m ids t E); [|apply (H m t); auto; now left].
    apply IH. intros m' t' Hm'. apply H. now right.
  - rewrite (create_item_none_unmapped m ids E).
    apply IH. intros m' t' Hm'. apply H. now right.
Qed.

End CatalogLoop.

Lemma integrate_csv_loop_app (TMDB_API_KEY : option Py.str)
    (requests_get : Z -> MovieLens.http) enrich links_df
    (xs ys : list MovieLens.csv_movie_row) ids acc :
  MovieLens.integrate_csv_loop TMDB_API_KEY requests_get enrich links_df (xs ++ ys) ids acc
  = match MovieLens.integrate_csv_loop TMDB_API_KEY requests_get enrich links_df xs ids acc with
    | Py.Ok (acc', ids') =>
        MovieLens.integrate_csv_loop TMDB_API_KEY requests_get enrich links_df ys ids' acc'
    | Py.Raise e => Py.Raise e
    end.
Proof.
  revert ids acc. induction xs as [|x xs IH]; intros ids acc; simpl; [reflexivity|].
  destruct (MovieLens.create_item_from_csv_row x links_df ids) as [[item|]|e];
    [apply IH | apply IH | reflexivity].
Qed.

Lemma create_item_from_csv_row_untitled links_df row (ids : gset Z) tmdb_id :
  MovieLens.csv_title row = None ->
  lookup_tmdb links_df (MovieLens.csv_movieId row) = Some tmdb_id ->
  tmdb_id ∉ ids ->
  MovieLens.create_item_from_csv_row row links_df ids
  = Py.Raise "argument of type 'float' is not iterable".
Proof.
  unfold MovieLens.create_item_from_csv_row, lookup_tmdb,
    MovieLens.create_item_from_movielens.
  intros -> Hl Hnew. simpl MovieLens.movieId.
  destruct (List.find _ links_df) as [l|]; [|discriminate].
  rewrite Hl. now rewrite bool_decide_eq_false_2.
Qed.

(** C5. One bad record can abort the batch: a row of [movies.csv] whose
    title cell is empty, and whose movie the links table maps to a TMDb
    identifier that is not known yet, makes [create_item_from_movielens]
    raise; the loop stops at that row, whatever rows come after it, and
    [integrate_movielens] ends with the exception before it writes
    [items.csv] or [ratings.csv]. *)
Theorem bad_record_aborts_batch (TMDB_API_KEY : option Py.str)
    (requests_get : Z -> MovieLens.http)
    (sample : nat -> list MovieLens.ml_rating -> list MovieLens.ml_rating)
    (float_div : Q -> Q -> Q) :
  (forall enrich links_df before bad after ids acc acc' ids' tmdb_id,
      MovieLens.integrate_csv_loop TMDB_API_KEY requests_get enrich links_df before ids acc
      = Py.Ok (acc', ids') ->
      MovieLens.csv_title bad = None ->
      lookup_tmdb links_df (MovieLens.csv_movieId bad) = Some tmdb_id ->
      tmdb_id ∉ ids' ->
      MovieLens.integrate_csv_loop TMDB_API_KEY requests_get enrich links_df
        (before ++ bad :: after) ids acc
      = Py.Raise "argument of type 'float' is not iterable")
  /\ (forall fs movies_df ml_ratings_df links_df enrich sample_ratings e,
        MovieLens.integrate_csv_loop TMDB_API_KEY requests_get enrich links_df movies_df
          (list_to_set (map Data.item_id (default [] (Data.items_csv fs)))) []
        = Py.Raise e ->
        MovieLens.integrate_movielens_csv TMDB_API_KEY requests_get sample float_div
          fs movies_df ml_ratings_df links_df enrich None sample_ratings
        = Py.Raise e)
  /\ MovieLens.integrate_movielens_csv TMDB_API_KEY requests_get sample float_div
       (Data.Files None None) [csv_toy_story; untitled_movie; csv_jumanji]
       [] sample_links false None None
     = Py.Raise "argument of type 'float' is not iterable"
  /\ (exists items ratings saved,
        MovieLens.integrate_movielens_csv TMDB_API_KEY requests_get sample float_div
          (Data.Files None None) [csv_toy_story; csv_jumanji]
          [] sample_links false None None
        = Py.Ok ((items, ratings), Data.Files (Some saved) (Some []))
        /\ map Data.item_id saved = [862; 8844]%Z).
Proof.
  split; [|split; [|split]].
  - intros enrich links_df before bad after ids acc acc' ids' tmdb_id Hb Ht Hl Hnew.
    rewrite integrate_csv_loop_app, Hb. simpl.
    now rewrite (create_item_from_csv_row_untitled _ _ _ _ Ht Hl Hnew).
  - intros fs movies_df ml_ratings_df links_df enrich sample_ratings e H.
    unfold MovieLens.integrate_movielens_csv. now rewrite H.
  - reflexivity.
  - unfold MovieLens.integrate_movielens_csv. simpl MovieLens.integrate_csv_loop.
    cbv iota beta. do 3 eexists. split; [reflexivity|].
    rewrite normalize_ids. reflexivity.
Qed.

Lemma bad_record_aborts_batch_witness :
  MovieLens.integrate_csv_loop None offline false sample_links
    ([csv_toy_story] ++ untitled_movie :: [csv_jumanji]) ∅ []
  = Py.Raise "argument of type 'float' is not iterable".
Proof.
  eapply (proj1 (bad_record_aborts_batch None offline (fun _ l => l) Qdiv)
            false sample_links [csv_toy_story] untitled_movie [csv_jumanji] ∅ []
            _ _ 8844%Z).
  - reflexivity.
  - reflexivity.
  - reflexivity.
  - apply (bool_decide_eq_false_1 _). reflexivity.
Defined.

(* ===================================================================== *)
(** * Re-ingestion of a batch                                             *)
(* ===================================================================== *)

Lemma integrate_items_runs (TMDB_API_KEY : option Py.str)
    (requests_get : Z -> MovieLens.http) (float_div : Q -> Q -> Q)
    existing movies_df links_df enrich max_movies :
  let run := MovieLens.integrate_items TMDB_API_KEY requests_get float_div existing movies_df
               links_df enrich max_movies in
  let processed := match max_movies with
                   | None => movies_df
                   | Some n => MovieLens.head n movies_df
                   end in
  exists new_ids,
    snd run = default [] (catalog_after existing (fst run))
    /\ catalog_ids (catalog_after existing (fst run)) = catalog_ids existing ++ new_ids
    /\ NoDup new_ids
    /\ (forall t, In t new_ids -> ~ In t (catalog_ids existing))
    /\ (fst run = None -> new_ids = [])
    /\ (forall m t, In m processed ->
          lookup_tmdb links_df (MovieLens.movieId m) = Some t ->
          In t (catalog_ids (catalog_after existing (fst run)))).
Proof.
  intros run processed. subst run. unfold MovieLens.integrate_items. fold processed.
  set (ex := default [] existing).
  destruct (integrate_loop_spec TMDB_API_KEY requests_get links_df enrich processed
              (list_to_set (map Data.item_id ex)) [])
    as (new & -> & Hnd & Hfresh & Hknown).
  simpl fst.
  assert (forall t, In t (map Data.item_id new) -> ~ In t (catalog_ids existing)) as Hfresh'.
  { intros t Ht Hin. apply (Hfresh t Ht).
    apply elem_of_list_to_set, list_elem_of_In. exact Hin. }
  assert (forall m t, In m processed ->
            lookup_tmdb links_df (MovieLens.movieId m) = Some t ->
            In t (map Data.item_id ex ++ map Data.item_id new)) as Hknown'.
  { intros m t Hm Ht. apply in_or_app.
    destruct (Hknown m t Hm Ht) as [H | H]; [left | now right].
    apply list_elem_of_In. now apply elem_of_list_to_set in H. }
  exists (map Data.item_id new).
  destruct new as [|n rest].
  - simpl. unfold catalog_ids. fold ex. rewrite app_nil_r.
    repeat (split; [auto; try constructor|]); try contradiction.
    intros m t Hm Ht. specialize (Hknown' m t Hm Ht). now rewrite app_nil_r in Hknown'.
  - simpl catalog_after.
    assert (catalog_ids (Some (MovieLens.normalize float_div (ex ++ n :: rest)))
            = catalog_ids existing ++ map Data.item_id (n :: rest)) as E.
    { unfold catalog_ids. simpl default. now rewrite normalize_ids, map_app. }
    rewrite E.
    split; [reflexivity|]. split; [reflexivity|]. split; [exact Hnd|].
    split; [exact Hfresh'|]. split; [discriminate|]. exact Hknown'.
Qed.

Lemma integrate_movielens_items_csv (TMDB_API_KEY : option Py.str)
    (requests_get : Z -> MovieLens.http) sample float_div fs movies_df ml_ratings_df
    links_df enrich max_movies sample_ratings :
  Data.items_csv
    (snd (MovieLens.integrate_movielens TMDB_API_KEY requests_get sample float_div fs
            movies_df
            ml_ratings_df links_df enrich max_movies sample_ratings))
  = catalog_after (Data.items_csv fs)
      (fst (MovieLens.integrate_items TMDB_API_KEY requests_get float_div
              (Data.items_csv fs) movies_df links_df enrich max_movies)).
Proof.
  unfold MovieLens.integrate_movielens.
  now destruct (MovieLens.integrate_items _ _ _ _ _ _ _ _) as [saved items].
Qed.

(** C2. Ingesting a batch a second time creates no item: the second run
    saves nothing and returns the catalog the first run left, so that
    [items.csv] is the same after two runs of [integrate_movielens] as after
    one.  A movie whose TMDb identifier is already in the catalog gives no
    item; the first run appends only items with new, pairwise distinct
    identifiers, so a catalog without duplicate identifiers stays without
    duplicates. *)
Theorem integrate_items_idempotent (TMDB_API_KEY TMDB_API_KEY' : option Py.str)
    (requests_get requests_get' : Z -> MovieLens.http)
    (float_div float_div' : Q -> Q -> Q)
    (existing : option (list Data.item)) movies_df links_df
    (enrich enrich' : bool) (max_movies : option Z) :
  let run1 := MovieLens.integrate_items TMDB_API_KEY requests_get float_div existing
                movies_df links_df enrich max_movies in
  let catalog1 := catalog_after existing (fst run1) in
  let run2 := MovieLens.integrate_items TMDB_API_KEY' requests_get' float_div' catalog1
                movies_df links_df enrich' max_movies in
  run2 = (None, default [] catalog1)
  /\ snd run1 = default [] catalog1
  /\ catalog_after catalog1 (fst run2) = catalog1
  /\ (exists new_ids,
        catalog_ids catalog1 = catalog_ids existing ++ new_ids
        /\ NoDup new_ids
        /\ forall t, In t new_ids -> ~ In t (catalog_ids existing))
  /\ (NoDup (catalog_ids existing) -> NoDup (catalog_ids catalog1))
  /\ (forall movie_row (ids : gset Z) tmdb,
        lookup_tmdb links_df (MovieLens.movieId movie_row) = Some tmdb ->
        tmdb ∈ ids ->
        MovieLens.create_item_from_movielens movie_row links_df ids = None)
  /\ (forall sample sample' fs ml_ratings_df sample_ratings,
        Data.items_csv fs = existing ->
        let fs1 := snd (MovieLens.integrate_movielens TMDB_API_KEY requests_get sample
                          float_div fs movies_df ml_ratings_df links_df enrich max_movies
                          sample_ratings) in
        let fs2 := snd (MovieLens.integrate_movielens TMDB_API_KEY' requests_get' sample'
                          float_div' fs1 movies_df ml_ratings_df links_df enrich' max_movies
                          sample_ratings) in
        Data.items_csv fs1 = catalog1 /\ Data.items_csv fs2 = Data.items_csv fs1).
Proof.
  intros run1 catalog1 run2.
  destruct (integrate_items_runs TMDB_API_KEY requests_get float_div existing movies_df
              links_df enrich max_movies)
    as (new_ids & Hret & Hids & Hnd & Hfresh & _ & Hknown).
  fold run1 in Hret, Hids, Hknown. fold catalog1 in Hret, Hids, Hknown.
  assert (run2 = (None, default [] catalog1)) as Hrun2.
  { subst run2. unfold MovieLens.integrate_items.
    rewrite integrate_loop_known; [reflexivity|].
    intros m t Hm Ht. apply elem_of_list_to_set, list_elem_of_In.
    exact (Hknown m t Hm Ht). }
  split; [exact Hrun2|]. split; [exact Hret|].
  split; [now rewrite Hrun2|].
  split; [exists new_ids; auto|]. split.
  - intros Hex. rewrite Hids. apply NoDup_app. split; [exact Hex|].
    split; [|exact Hnd].
    intros t Ht Hnew. apply list_elem_of_In in Ht, Hnew. exact (Hfresh t Hnew Ht).
  - split; [intros movie_row ids tmdb; apply create_item_none_known|].
    intros sample sample' fs ml_ratings_df sample_ratings Hfs fs1 fs2.
    assert (Data.items_csv fs1 = catalog1) as E1.
    { unfold fs1. rewrite integrate_movielens_items_csv, Hfs. reflexivity. }
    split; [exact E1|].
    unfold fs2. rewrite integrate_movielens_items_csv, E1.
    fold run2. now rewrite Hrun2.
Qed.

Lemma integrate_items_idempotent_witness :
  NoDup (catalog_ids
           (catalog_after (Some one_item_catalog)
              (fst (MovieLens.integrate_items None offline Qdiv (Some one_item_catalog)
                      [toy_story; unmapped_movie; jumanji] sample_links false None)))).
Proof.
  apply (proj1 (proj2 (proj2 (proj2 (proj2
           (integrate_items_idempotent None None offline offline Qdiv Qdiv
              (Some one_item_catalog) [toy_story; unmapped_movie; jumanji]
              sample_links false false None)))))).
  apply NoDup_ListNoDup. simpl. repeat constructor. simpl. tauto.
Defined.

(* ===================================================================== *)
(** * The model on concrete inputs                                        *)
(* ===================================================================== *)

(** Two spaces, a, tab, a quoted b, two spaces, newline, space, c, space
    becomes a b c with single spaces. *)
Example clean_text_example :
  App.clean_text (Py.VStr [32; 32; 97; 9; 34; 98; 34; 32; 32; 10; 32; 99; 32]%N)
  = [97; 32; 98; 32; 99]%N.
Proof. reflexivity. Qed.

Example clean_text_number : App.clean_text (Py.VInt 5) = [].
Proof. reflexivity. Qed.

Example title_year_toy_story :
  MovieLens.title_year (MovieLens.m_title toy_story) = Some 1995%Z.
Proof. reflexivity. Qed.

(** A repeated movie and an unmapped one give no item. *)
Example integrate_loop_example :
  map Data.item_id
    (fst (MovieLens.integrate_loop None offline false sample_links
            [toy_story; unmapped_movie; jumanji; toy_story] ∅ []))
  = [862; 8844]%Z.
Proof. reflexivity. Qed.

Example convert_movielens_ratings_example :
  map (fun c => (MovieLens.c_user_id c, MovieLens.c_item_id c))
    (MovieLens.convert_movielens_ratings
       [MovieLens.MlRating 1 1 (Q2Qc 4) 964982703;
        MovieLens.MlRating 2 3 (Q2Qc 5) 964981247]
       [MovieLens.LinkRow 1 (Some 862%Z); MovieLens.LinkRow 3 None])
  = [(1001, 862)]%Z.
Proof. reflexivity. Qed.

(** The same user rating the same item twice leaves one row, with the
    later rating and timestamp. *)
Example api_add_rating_twice :
  map (fun r => (Data.r_rating r, Data.r_timestamp r))
    (default []
       (App.ratings_df
          (System.app
             (System.run [System.AddRating (sample_rating 3) (Q2Qc 100);
                          System.AddRating (sample_rating 5) (Q2Qc 200)]
                System.initial_world))))
  = [(Py.VInt 5, Q2Qc 200)].
Proof. reflexivity. Qed.

Example get_similar_items_example :
  ContentBased.get_similar_items
    (ContentBased.train closeness 2 [bare_item 1; bare_item 2; bare_item 5]) 2 5
  = Py.Ok [(1%Z, (1 # 2)%Q); (5%Z, (1 # 4)%Q)].
Proof. reflexivity. Qed.

Example column_max_example :
  MovieLens.column_max [Some 1%Q; None; Some 3%Q; Some 2%Q] = Some 3%Q.
Proof. reflexivity. Qed.

(* ===================================================================== *)
(** * More on clean_text                                                  *)
(* ===================================================================== *)

Lemma filter_visible_sub_unsafe (s : Py.str) :
  List.filter visible (App.sub_unsafe s) = List.filter visible s.
Proof.
  induction s as [|c r IH]; simpl; [reflexivity|].
  destruct (App.is_unsafe c) eqn:E.
  - assert (visible c = false) as -> by (unfold visible; now rewrite E, andb_false_r).
    change (visible 32) with false. exact IH.
  - destruct (visible c); now rewrite IH.
Qed.

Lemma filter_visible_sub_spaces (s : Py.str) b :
  List.filter visible (App.sub_spaces b s) = List.filter visible s.
Proof.
  revert b. induction s as [|c r IH]; intros b; simpl; [reflexivity|].
  destruct (Py.isspace c) eqn:E.
  - assert (visible c = false) as -> by (unfold visible; now rewrite E).
    destruct b; simpl; [|change (visible 32) with false]; apply IH.
  - simpl. destruct (visible c); now rewrite IH.
Qed.

Lemma filter_visible_lstrip (s : Py.str) :
  List.filter visible (Py.lstrip s) = List.filter visible s.
Proof.
  induction s as [|c r IH]; simpl; [reflexivity|].
  destruct (Py.isspace c) eqn:E; [|reflexivity].
  assert (visible c = false) as -> by (unfold visible; now rewrite E).
  exact IH.
Qed.

Lemma filter_visible_strip (s : Py.str) :
  List.filter visible (Py.strip s) = List.filter visible s.
Proof.
  unfold Py.strip, Py.rstrip.
  rewrite List.filter_rev, filter_visible_lstrip, <- List.filter_rev, rev_involutive.
  apply filter_visible_lstrip.
Qed.

Lemma length_sub_spaces (s : Py.str) b : (length (App.sub_spaces b s) <= length s)%nat.
Proof.
  revert b. induction s as [|c r IH]; intros b; simpl; [lia|].
  pose proof (IH true). pose proof (IH false).
  destruct (Py.isspace c); [destruct b|]; simpl; lia.
Qed.

Lemma length_lstrip (s : Py.str) : (length (Py.lstrip s) <= length s)%nat.
Proof.
  induction s as [|c r IH]; simpl; [lia|]. destruct (Py.isspace c); simpl; lia.
Qed.

Lemma length_strip (s : Py.str) : (length (Py.strip s) <= length s)%nat.
Proof.
  unfold Py.strip, Py.rstrip. rewrite length_rev.
  etransitivity; [apply length_lstrip|]. rewrite length_rev. apply length_lstrip.
Qed.

Lemma no_run_relax (s : Py.str) b : no_run b s = true -> no_run false s = true.
Proof.
  destruct b; [|auto]. destruct s as [|c r]; simpl; [auto|].
  destruct (Py.isspace c); simpl; [discriminate | auto].
Qed.

Lemma no_run_app_r (p t : Py.str) b : no_run b (p ++ t) = true -> no_run false t = true.
Proof.
  revert b. induction p as [|x p IH]; intros b H; simpl in H.
  - eapply no_run_relax; eauto.
  - destruct (Py.isspace x); [apply andb_true_iff in H as [_ H]|]; eauto.
Qed.

Lemma no_run_app_l (t q : Py.str) b : no_run b (t ++ q) = true -> no_run b t = true.
Proof.
  revert b. induction t as [|x t IH]; intros b H; simpl in *; [reflexivity|].
  destruct (Py.isspace x); [|eauto].
  apply andb_true_iff in H as [-> H]. simpl. eauto.
Qed.

Lemma no_run_head (t : Py.str) :
  no_run false t = true -> (forall c r, t = c :: r -> Py.isspace c = false) ->
  no_run true t = true.
Proof.
  destruct t as [|c r]; [reflexivity|]. intros H Hhd. simpl in *.
  now rewrite (Hhd c r eq_refl) in *.
Qed.

(** The shape of a cleaned text, from the two substitutions and the
    strip. *)
Lemma clean_text_tidy (s : Py.str) : tidy (App.clean_text (Py.VStr s)).
Proof.
  simpl. set (w := App.sub_spaces false (App.sub_unsafe s)).
  destruct (strip_infix w) as (pre & post & Hw).
  assert (forall c, In c (Py.strip w) -> In c w) as Hsub.
  { intros c Hc. rewrite Hw. apply in_or_app. right. apply in_or_app. now left. }
  split; [|split; [|split]].
  - intros c Hc. apply Hsub, sub_spaces_chars in Hc as [-> | [Hc _]]; [reflexivity|].
    eapply sub_unsafe_chars; eauto.
  - intros c Hc Hsp. apply Hsub, sub_spaces_chars in Hc as [-> | [_ Hc]];
      [reflexivity | congruence].
  - apply no_run_head; [|apply strip_head].
    apply (no_run_app_l _ post), (no_run_app_r pre _ false).
    rewrite <- Hw. apply sub_spaces_no_run.
  - apply rstrip_last.
Qed.

Lemma sub_unsafe_fixed (s : Py.str) :
  (forall c, In c s -> App.is_unsafe c = false) -> App.sub_unsafe s = s.
Proof.
  induction s as [|c r IH]; simpl; intros H; [reflexivity|].
  rewrite (H c) by now left. f_equal. apply IH. intros d Hd. apply H. now right.
Qed.

Lemma sub_spaces_fixed (s : Py.str) b :
  no_run b s = true -> (forall c, In c s -> Py.isspace c = true -> c = 32%N) ->
  App.sub_spaces b s = s.
Proof.
  revert b. induction s as [|c r IH]; intros b Hrun Hsp; simpl in *; [reflexivity|].
  assert (forall d, In d r -> Py.isspace d = true -> d = 32%N) as Hr
    by (intros d Hd; apply Hsp; now right).
  destruct (Py.isspace c) eqn:E.
  - apply andb_true_iff in Hrun as [Hb Hrun]. apply negb_true_iff in Hb. subst b.
    rewrite (Hsp c) by (auto; now left). f_equal. now apply IH.
  - f_equal. now apply IH.
Qed.

Lemma lstrip_fixed (s : Py.str) : no_run true s = true -> Py.lstrip s = s.
Proof.
  destruct s as [|c r]; simpl; [reflexivity|].
  destruct (Py.isspace c); simpl; [discriminate | reflexivity].
Qed.

Lemma rstrip_fixed (s : Py.str) :
  (forall r c, s = r ++ [c] -> Py.isspace c = false) -> Py.rstrip s = s.
Proof.
  intros H. unfold Py.rstrip.
  destruct (rev s) as [|c t] eqn:E.
  - apply (f_equal (@rev N)) in E. rewrite rev_involutive in E. now subst.
  - apply (f_equal (@rev N)) in E. rewrite rev_involutive in E. simpl in E.
    simpl. rewrite (H (rev t) c E). simpl. now symmetry.
Qed.

(** X1. [clean_text] keeps every character that is neither whitespace nor
    one of the five replaced characters, in its order; the whitespace it
    leaves is the plain space; the result is never longer than the input. *)
Theorem clean_text_keeps_visible (s : Py.str) :
  let out := App.clean_text (Py.VStr s) in
  List.filter visible out = List.filter visible s
  /\ (forall c, In c out -> Py.isspace c = true -> c = 32%N)
  /\ (length out <= length s)%nat.
Proof.
  split; [|split].
  - simpl. now rewrite filter_visible_strip, filter_visible_sub_spaces,
      filter_visible_sub_unsafe.
  - apply clean_text_tidy.
  - simpl. etransitivity; [apply length_strip|].
    etransitivity; [apply length_sub_spaces|].
    unfold App.sub_unsafe. now rewrite length_map.
Qed.

Lemma clean_text_keeps_visible_witness :
  List.filter visible (App.clean_text (Py.VStr [32; 97; 9; 98; 32]%N))
  = List.filter visible [32; 97; 9; 98; 32]%N.
Proof.
  apply (proj1 (clean_text_keeps_visible [32; 97; 9; 98; 32]%N)).
Defined.

(** X2. [clean_text] is idempotent: cleaning a cleaned text changes
    nothing. *)
Theorem clean_text_idempotent (text : Py.value) :
  App.clean_text (Py.VStr (App.clean_text text)) = App.clean_text text.
Proof.
  destruct text as [| b | q | s]; try reflexivity.
  destruct (clean_text_tidy s) as (Hsafe & Hsp & Hrun & Hlast).
  set (out := App.clean_text (Py.VStr s)) in *.
  change (Py.strip (App.sub_spaces false (App.sub_unsafe out)) = out).
  rewrite sub_unsafe_fixed by exact Hsafe.
  rewrite sub_spaces_fixed; [|eapply no_run_relax; eauto | exact Hsp].
  unfold Py.strip. rewrite lstrip_fixed by exact Hrun. now apply rstrip_fixed.
Qed.

(* ===================================================================== *)
(** * More on the endpoints of app.py                                     *)
(* ===================================================================== *)

Lemma item_info_sound (st : App.state) (id : Z) (it : Data.item) :
  App.item_info st id = Some it ->
  Data.item_id it = id /\ exists df, App.items_df st = Some df /\ In it df.
Proof.
  unfold App.item_info. destruct (App.items_df st) as [df|]; [|discriminate].
  intros H. apply find_some in H as [Hin Hid]. apply Z.eqb_eq in Hid. eauto.
Qed.

(** X3. When the model answers, the similar-items endpoint responds with
    status 200 and one entry per pair of the model, with its identifier and
    score and in its order; the title and overview of every entry are
    cleaned texts, those of the catalog row of the identifier; an identifier
    the catalog does not know gives an entry with empty texts, not an
    error. *)
Theorem rendered_entries (st : App.state) (cb : App.ContentBasedFiltering)
    (item_id : Z) (limit_arg : option Z) (recs : App.recs) :
  App.cb_model st = Some cb ->
  App.cb_get_similar_items cb item_id (default 10%Z limit_arg) = Py.Ok recs ->
  exists results,
    App.api_similar_items st item_id limit_arg = (App.BSimilar item_id results, 200%Z)
    /\ map App.e_item_id results = map fst recs
    /\ map App.e_score results = map snd recs
    /\ forall e, In e results ->
         tidy (App.e_title e) /\ tidy (App.e_overview e)
         /\ (App.item_info st (App.e_item_id e) = None ->
             App.e_title e = [] /\ App.e_content_type e = []
             /\ App.e_poster_path e = [] /\ App.e_overview e = [])
         /\ (forall it, App.item_info st (App.e_item_id e) = Some it ->
               In it (default [] (App.items_df st))
               /\ Data.item_id it = App.e_item_id e
               /\ App.e_title e = App.clean_text (Py.VStr (default [] (Data.title it)))
               /\ App.e_overview e
                  = App.clean_text (Py.VStr (default [] (Data.overview it)))
               /\ App.e_content_type e = default [] (Data.content_type it)
               /\ App.e_poster_path e = default [] (Data.poster_path it)).
Proof.
  intros Hcb Hget. exists (map (App.make_entry st) recs).
  split; [unfold App.api_similar_items; now rewrite Hcb, Hget|].
  split; [now rewrite map_map|]. split; [now rewrite map_map|].
  intros e He. apply in_map_iff in He as (p & <- & _). simpl.
  split; [apply clean_text_tidy|]. split; [apply clean_text_tidy|]. split.
  - intros ->. simpl. auto.
  - intros it Hit. rewrite Hit. simpl.
    apply item_info_sound in Hit as (Hid & df & Hdf & Hin).
    rewrite Hdf. simpl. repeat (split; [assumption || reflexivity|]). reflexivity.
Qed.

Lemma rendered_entries_witness :
  exists results,
    App.api_similar_items similar_in_catalog 7 None = (App.BSimilar 7 results, 200%Z)
    /\ map App.e_item_id results = [500; 999]%Z
    /\ map App.e_title results = [[65; 32; 66]%N; []].
Proof.
  destruct (rendered_entries similar_in_catalog _ 7%Z None _ eq_refl eq_refl)
    as (results & E & Hid & _).
  exists results. split; [exact E|]. split; [exact Hid|].
  vm_compute in E. injection E as <-. reflexivity.
Defined.

Lemma get_ml_recommendations_ok (st : App.state) (user_id n : Z) :
  exists l, App.get_ml_recommendations st user_id n = Py.Ok l.
Proof.
  unfold App.get_ml_recommendations.
  destruct (App.hybrid_model st) as [h|].
  - destruct (App.hy_recommend h user_id n (App.ratings_df st)); simpl; eauto.
  - destruct (App.cb_model st) as [cb|]; simpl; eauto.
    destruct (App.cb_recommend_for_user cb user_id n (App.ratings_df st)); simpl; eauto.
Qed.

(** X4. The recommendations page never fails on the model: it shows, in
    the order of the model, exactly the recommended items that the catalog
    knows, each as the first catalog row of its identifier; it shows nothing
    when no catalog is loaded and when neither the hybrid nor the
    content-based model is loaded. *)
Theorem recommendations_page_lists_catalog_items (st : App.state)
    (user_id_arg : option Z) :
  exists shown,
    Routes.recommendations_page st user_id_arg = Py.Ok shown
    /\ (forall it score, In (it, score) shown ->
          App.item_info st (Data.item_id it) = Some it)
    /\ (forall raw,
          MovieLens.present (App.hybrid_model st)
          || MovieLens.present (App.cb_model st) = true ->
          App.get_ml_recommendations st (default 1%Z user_id_arg) 20 = Py.Ok raw ->
          map (fun p => (Data.item_id (fst p), snd p)) shown
          = List.filter (fun p => MovieLens.present (App.item_info st (fst p))) raw)
    /\ (App.items_df st = None -> shown = [])
    /\ (App.hybrid_model st = None -> App.cb_model st = None -> shown = []).
Proof.
  unfold Routes.recommendations_page.
  destruct (get_ml_recommendations_ok st (default 1%Z user_id_arg) 20) as [raw Hraw].
  rewrite Hraw.
  set (pick := fun p : Z * Q =>
                 match App.item_info st (fst p) with
                 | Some item_info => [(item_info, snd p)]
                 | None => []
                 end).
  destruct (MovieLens.present (App.hybrid_model st)
            || MovieLens.present (App.cb_model st)) eqn:Hm.
  - exists (flat_map pick raw). split; [reflexivity|]. split; [|split; [|split]].
    + intros it score Hin. apply in_flat_map in Hin as (p & _ & Hp). unfold pick in Hp.
      destruct (App.item_info st (fst p)) as [it'|] eqn:E; [|contradiction].
      destruct Hp as [[= <- <-] | []].
      apply item_info_sound in E as E'. destruct E' as [-> _]. exact E.
    + intros raw' _ [= <-]. clear Hraw. induction raw as [|p raw IH]; [reflexivity|].
      simpl. rewrite map_app, IH. unfold pick at 1.
      destruct (App.item_info st (fst p)) as [it|] eqn:E; simpl; [|reflexivity].
      apply item_info_sound in E as [-> _]. now destruct p.
    + intros Hnone. clear Hraw. induction raw as [|p raw IH]; [reflexivity|].
      simpl. rewrite IH. unfold pick, App.item_info. now rewrite Hnone.
    + intros Hh Hc. rewrite Hh, Hc in Hm. discriminate.
  - exists []. repeat split; try contradiction; auto.
    intros raw' H. discriminate.
Qed.

Lemma recommendations_page_lists_catalog_items_witness :
  exists shown,
    Routes.recommendations_page hybrid_only None = Py.Ok shown /\ shown = [].
Proof.
  destruct (recommendations_page_lists_catalog_items hybrid_only None)
    as (shown & Hpage & _ & _ & Hnone & _).
  exists shown. split; [exact Hpage|]. apply Hnone. reflexivity.
Defined.





(** X6. An accepted rating request writes the frame the application holds
    in memory over [ratings.csv]: after a run of the integration script that
    the application has not reloaded, the file is what it would be without
    that run, so the ratings the script merged are no longer in it. *)
Theorem add_rating_overwrites_integration (w : System.world) (a : System.run_args)
    (data : gmap string Py.value) (now : Qc) :
  Py.all [App.get data "user_id"; App.get data "item_id"; App.get data "rating"] = true ->
  let w1 := System.step (System.step w (System.Integrate a)) (System.AddRating data now) in
  let w2 := System.step w (System.AddRating data now) in
  Data.ratings_csv (System.disk w1) = Data.ratings_csv (System.disk w2)
  /\ Data.ratings_csv (System.disk w1) = App.ratings_df (System.app w1)
  /\ Data.items_csv (System.disk w1)
     = Data.items_csv (System.disk (System.step w (System.Integrate a))).
Proof.
  intros Hall. simpl. unfold App.api_add_rating. rewrite Hall. simpl. auto.
Qed.

Lemma add_rating_overwrites_integration_witness :
  Data.ratings_csv
    (System.disk
       (System.step
          (System.step System.initial_world
             (System.Integrate
                (System.RunArgs None offline (fun _ l => l) Qdiv [toy_story]
                   [MovieLens.MlRating 1 1 (Q2Qc 4) 964982703] sample_links
                   false None None)))
          (System.AddRating (sample_rating 3) (Q2Qc 100))))
  = Data.ratings_csv
      (System.disk
         (System.step System.initial_world
            (System.AddRating (sample_rating 3) (Q2Qc 100)))).
Proof.
  apply (add_rating_overwrites_integration System.initial_world
           (System.RunArgs None offline (fun _ l => l) Qdiv [toy_story]
              [MovieLens.MlRating 1 1 (Q2Qc 4) 964982703] sample_links
              false None None)
           (sample_rating 3) (Q2Qc 100)).
  reflexivity.
Defined.

(* ===================================================================== *)
(** * The watchlist                                                       *)
(* ===================================================================== *)

Section WatchlistLaws.

Context {V : Type}.
Implicit Types (d : Routes.dict V) (k : Py.str) (v : V).

Lemma dict_contains_In k d : Routes.dict_contains k d = true <-> In k (map fst d).
Proof.
  unfold Routes.dict_contains. rewrite existsb_exists, in_map_iff. split.
  - intros (p & Hin & Hp). apply bool_decide_eq_true in Hp. eauto.
  - intros (p & Hp & Hin). exists p. split; [exact Hin|]. now apply bool_decide_eq_true.
Qed.

Lemma dict_set_keys k v d :
  map fst (Routes.dict_set k v d)
  = if Routes.dict_contains k d then map fst d else map fst d ++ [k].
Proof.
  induction d as [|p rest IH]; simpl; [reflexivity|].
  destruct (bool_decide (fst p = k)) eqn:E; simpl.
  - apply bool_decide_eq_true in E. now rewrite E.
  - rewrite IH. now destruct (Routes.dict_contains k rest).
Qed.

Lemma dict_get_set_eq k v d : Routes.dict_get k (Routes.dict_set k v d) = Some v.
Proof.
  unfold Routes.dict_get. induction d as [|p rest IH]; simpl.
  - now rewrite bool_decide_eq_true_2.
  - destruct (bool_decide (fst p = k)) eqn:E; simpl.
    + now rewrite bool_decide_eq_true_2.
    + now rewrite E.
Qed.

Lemma dict_get_set_ne k k' v d :
  k' <> k -> Routes.dict_get k' (Routes.dict_set k v d) = Routes.dict_get k' d.
Proof.
  intros Hne. unfold Routes.dict_get. induction d as [|p rest IH]; simpl.
  - rewrite bool_decide_eq_false_2; [reflexivity | congruence].
  - destruct (bool_decide (fst p = k)) eqn:E; simpl.
    + apply bool_decide_eq_true in E.
      rewrite !bool_decide_eq_false_2; [reflexivity | congruence | congruence].
    + destruct (bool_decide (fst p = k')); [reflexivity | exact IH].
Qed.

Lemma dict_get_del_eq k d : Routes.dict_get k (Routes.dict_del k d) = None.
Proof.
  unfold Routes.dict_get, Routes.dict_del. induction d as [|p rest IH]; simpl; [reflexivity|].
  destruct (bool_decide (fst p = k)) eqn:E; simpl; [exact IH|]. now rewrite E.
Qed.

Lemma dict_get_del_ne k k' d :
  k' <> k -> Routes.dict_get k' (Routes.dict_del k d) = Routes.dict_get k' d.
Proof.
  intros Hne. unfold Routes.dict_get, Routes.dict_del.
  induction d as [|p rest IH]; simpl; [reflexivity|].
  destruct (bool_decide (fst p = k)) eqn:E; simpl.
  - apply bool_decide_eq_true in E.
    rewrite bool_decide_eq_false_2; [exact IH | congruence].
  - destruct (bool_decide (fst p = k')); [reflexivity | exact IH].
Qed.

Lemma dict_del_absent k d : Routes.dict_contains k d = false -> Routes.dict_del k d = d.
Proof.
  unfold Routes.dict_contains, Routes.dict_del.
  induction d as [|p rest IH]; simpl; [reflexivity|].
  destruct (bool_decide (fst p = k)); simpl; [discriminate|].
  intros H. now rewrite IH.
Qed.

Lemma dict_del_set_absent k v d :
  Routes.dict_contains k d = false -> Routes.dict_del k (Routes.dict_set k v d) = d.
Proof.
  unfold Routes.dict_contains.
  induction d as [|p rest IH]; simpl.
  - intros _. unfold Routes.dict_del. simpl. now rewrite bool_decide_eq_true_2.
  - destruct (bool_decide (fst p = k)) eqn:E; simpl; [discriminate|].
    intros H. unfold Routes.dict_del in *. simpl. rewrite E. simpl. now rewrite IH.
Qed.

Lemma dict_set_set k v1 v2 d :
  Routes.dict_set k v2 (Routes.dict_set k v1 d) = Routes.dict_set k v2 d.
Proof.
  induction d as [|p rest IH]; simpl.
  - now rewrite bool_decide_eq_true_2.
  - destruct (bool_decide (fst p = k)) eqn:E; simpl.
    + now rewrite bool_decide_eq_true_2.
    + now rewrite E, IH.
Qed.

Lemma dict_set_NoDup k v d : NoDup (map fst d) -> NoDup (map fst (Routes.dict_set k v d)).
Proof.
  intros H. rewrite dict_set_keys.
  destruct (Routes.dict_contains k d) eqn:E; [exact H|].
  apply NoDup_app. split; [exact H|]. split; [|apply NoDup_singleton].
  intros x Hx Hk. apply list_elem_of_singleton in Hk. subst x.
  apply list_elem_of_In, dict_contains_In in Hx. congruence.
Qed.

Lemma dict_del_NoDup k d : NoDup (map fst d) -> NoDup (map fst (Routes.dict_del k d)).
Proof.
  unfold Routes.dict_del. induction d as [|p rest IH]; simpl; [auto|].
  intros H. apply NoDup_cons in H as [Hp Hrest].
  destruct (bool_decide (fst p = k)); simpl; [auto|].
  apply NoDup_cons. split; [|auto].
  intros Hin. apply Hp. apply list_elem_of_In in Hin. apply list_elem_of_In.
  apply in_map_iff in Hin as (q & Hq & Hin). apply filter_In in Hin as [Hin _].
  apply in_map_iff. eauto.
Qed.

End WatchlistLaws.

(** X7. The watchlist keeps one entry per printed item id.  A POST stores
    the body under its item id, in place when the id is listed and at the
    end otherwise; a DELETE removes that id, and answers with success and an
    unchanged list when the id is not listed; neither touches the entry of
    another id; a GET lists the stored bodies and changes nothing. *)
Theorem api_watchlist_laws (str_of : Py.value -> Py.str)
    (user_watchlist : Routes.dict Routes.json_object) (data : Routes.json_object) :
  let item_id := str_of (App.get data "item_id") in
  let get := Routes.api_watchlist str_of user_watchlist Routes.GET data in
  let post := Routes.api_watchlist str_of user_watchlist Routes.POST data in
  let delete := Routes.api_watchlist str_of user_watchlist Routes.DELETE data in
  get = (Routes.RWatchlist (map snd user_watchlist), user_watchlist)
  /\ (Routes.dict_get item_id (snd post) = Some data
      /\ map fst (snd post)
         = (if Routes.dict_contains item_id user_watchlist
            then map fst user_watchlist else map fst user_watchlist ++ [item_id]))
  /\ (fst delete = Routes.RSuccess "Listeden çıkarıldı"
      /\ Routes.dict_get item_id (snd delete) = None
      /\ (Routes.dict_contains item_id user_watchlist = false ->
          snd delete = user_watchlist))
  /\ (forall other, other <> item_id ->
        Routes.dict_get other (snd post) = Routes.dict_get other user_watchlist
        /\ Routes.dict_get other (snd delete) = Routes.dict_get other user_watchlist)
  /\ (NoDup (map fst user_watchlist) ->
      NoDup (map fst (snd post)) /\ NoDup (map fst (snd delete))).
Proof.
  intros item_id get post delete. subst get post delete. simpl. fold item_id.
  split; [reflexivity|]. split; [|split; [|split]].
  - split; [apply dict_get_set_eq | apply dict_set_keys].
  - split; [reflexivity|]. split.
    + destruct (Routes.dict_contains item_id user_watchlist) eqn:E;
        [apply dict_get_del_eq|].
      unfold Routes.dict_get.
      destruct (List.find _ user_watchlist) as [p|] eqn:F; [|reflexivity].
      apply find_some in F as [Hin Hp]. apply bool_decide_eq_true in Hp.
      assert (Routes.dict_contains item_id user_watchlist = true); [|congruence].
      apply dict_contains_In, in_map_iff. eauto.
    + now intros ->.
  - intros other Hne. split; [now apply dict_get_set_ne|].
    destruct (Routes.dict_contains item_id user_watchlist); [|reflexivity].
    now apply dict_get_del_ne.
  - intros H. split; [now apply dict_set_NoDup|].
    destruct (Routes.dict_contains item_id user_watchlist); [|exact H].
    now apply dict_del_NoDup.
Qed.

Lemma api_watchlist_laws_witness :
  NoDup (map fst (snd (Routes.api_watchlist (fun _ => [49]%N)
                         [([49]%N, sample_rating 3)] Routes.POST (sample_rating 5)))).
Proof.
  apply (proj2 (proj2 (proj2 (proj2
           (api_watchlist_laws (fun _ => [49]%N) [([49]%N, sample_rating 3)]
              (sample_rating 5)))))).
  simpl. apply NoDup_singleton.
Defined.

(** X8. Posting an item again replaces its entry, so that two POSTs of one
    item id leave what the second alone leaves; a DELETE after the POST of
    an item that was not listed gives back the watchlist as it was. *)
Theorem api_watchlist_round_trips (str_of : Py.value -> Py.str)
    (user_watchlist : Routes.dict Routes.json_object)
    (data data' : Routes.json_object) :
  str_of (App.get data "item_id") = str_of (App.get data' "item_id") ->
  let posted := snd (Routes.api_watchlist str_of user_watchlist Routes.POST data) in
  snd (Routes.api_watchlist str_of posted Routes.POST data')
  = snd (Routes.api_watchlist str_of user_watchlist Routes.POST data')
  /\ (Routes.dict_contains (str_of (App.get data "item_id")) user_watchlist = false ->
      snd (Routes.api_watchlist str_of posted Routes.DELETE data') = user_watchlist).
Proof.
  intros Hid posted. subst posted. simpl. rewrite <- Hid. split.
  - apply dict_set_set.
  - intros Habsent.
    assert (Routes.dict_contains (str_of (App.get data "item_id"))
              (Routes.dict_set (str_of (App.get data "item_id")) data user_watchlist)
            = true) as ->.
    { apply dict_contains_In. rewrite dict_set_keys, Habsent.
      apply in_or_app. right. now left. }
    now apply dict_del_set_absent.
Qed.

Lemma api_watchlist_round_trips_witness :
  snd (Routes.api_watchlist (fun _ => [49]%N)
         (snd (Routes.api_watchlist (fun _ => [49]%N) [] Routes.POST (sample_rating 3)))
         Routes.POST (sample_rating 5))
  = snd (Routes.api_watchlist (fun _ => [49]%N) [] Routes.POST (sample_rating 5)).
Proof.
  apply (api_watchlist_round_trips (fun _ => [49]%N) [] (sample_rating 3)
           (sample_rating 5) eq_refl).
Defined.

(* ===================================================================== *)
(** * Authentication and search                                           *)
(* ===================================================================== *)

Lemma split_no_separator (c : N) (s : Py.str) :
  ~ In c s -> Routes.split c s = [s].
Proof.
  induction s as [|d r IH]; simpl; intros H; [reflexivity|].
  destruct (N.eqb_spec d c) as [->|_]; [exfalso; apply H; now left|].
  rewrite IH; [reflexivity|]. intros Hin. apply H. now right.
Qed.

Lemma split_at_separator (c : N) (s t : Py.str) :
  ~ In c s -> Routes.split c (s ++ c :: t) = s :: Routes.split c t.
Proof.
  induction s as [|d r IH]; simpl; intros H.
  - now rewrite N.eqb_refl.
  - destruct (N.eqb_spec d c) as [->|_]; [exfalso; apply H; now left|].
    rewrite IH; [reflexivity|]. intros Hin. apply H. now right.
Qed.

(** X9. [auth_required] lets the view answer only for a header whose
    second space-separated field is a token that verifies, whatever the
    first field is; a missing or empty header, a header without a space and
    a token that does not verify are each answered with status 401. *)
Theorem auth_required_gate (verify_token : Py.str -> bool) (f : App.response)
    (auth_header : option Py.str) :
  (auth_header = None \/ auth_header = Some [] ->
   Routes.auth_required verify_token f auth_header
   = (App.BError "Yetkilendirme başlığı eksik", 401%Z))
  /\ (forall h, auth_header = Some h -> h <> [] -> ~ In 32%N h ->
        Routes.auth_required verify_token f auth_header
        = (App.BError "Geçersiz yetkilendirme başlığı formatı", 401%Z))
  /\ (forall scheme token tail,
        auth_header = Some (scheme ++ 32%N :: token ++ tail) ->
        ~ In 32%N scheme -> ~ In 32%N token ->
        (tail = [] \/ exists rest, tail = 32%N :: rest) ->
        Routes.auth_required verify_token f auth_header
        = if verify_token token then f
          else (App.BError "Geçersiz veya süresi dolmuş token", 401%Z))
  /\ (Routes.auth_required verify_token f auth_header = f
      \/ snd (Routes.auth_required verify_token f auth_header) = 401%Z).
Proof.
  split; [|split; [|split]].
  - intros [-> | ->]; reflexivity.
  - intros h -> Hne Hsp. destruct h as [|c h]; [congruence|].
    unfold Routes.auth_required. now rewrite split_no_separator.
  - intros scheme token tail -> Hs Ht Htail. unfold Routes.auth_required.
    destruct (scheme ++ 32%N :: token ++ tail) as [|c h] eqn:E;
      [destruct scheme; discriminate|].
    rewrite <- E, split_at_separator by exact Hs.
    destruct Htail as [-> | [rest ->]].
    + rewrite app_nil_r, split_no_separator by exact Ht. reflexivity.
    + rewrite split_at_separator by exact Ht. reflexivity.
  - unfold Routes.auth_required.
    destruct auth_header as [[|c h]|]; [now right | | now right].
    cbv beta iota.
    destruct (nth_error (Routes.split 32 (c :: h)) 1) as [token|]; [|now right].
    destruct (verify_token token); [now left | now right].
Qed.

Lemma auth_required_gate_witness :
  Routes.auth_required (fun t => Nat.eqb (length t) 1)
    (App.BSuccess "ok", 200%Z)
    (Some ([66; 101; 97; 114; 101; 114] ++ 32 :: [116] ++ [])%N)
  = (App.BSuccess "ok", 200%Z).
Proof.
  apply (proj1 (proj2 (proj2
           (auth_required_gate (fun t => Nat.eqb (length t) 1)
              (App.BSuccess "ok", 200%Z)
              (Some ([66; 101; 97; 114; 101; 114] ++ 32 :: [116] ++ [])%N))))
           [66; 101; 97; 114; 101; 114]%N [116]%N [] eq_refl).
  - simpl. intros H. repeat destruct H as [H | H]; try discriminate H; exact H.
  - simpl. intros [H | []]. discriminate H.
  - now left.
Defined.

(** X10. [api_search] answers with status 400 exactly for an absent or
    empty query; every other request is answered with status 200, whatever
    TMDb does, with movies searched only for the types all and movie and
    series only for all and tv.  A search gives results only when the request
    returned, with a status outside 400 to 599 and a body that has the key
    results. *)
Theorem api_search_filters (R : Type)
    (get_search_movie get_search_tv : Py.str -> Z -> Routes.tmdb R)
    (q_arg : option Py.str) (type_arg : option string) (page_arg : option Z) :
  let query := default [] q_arg in
  let content_type := default "all"%string type_arg in
  let page := default 1%Z page_arg in
  let resp := Routes.api_search R get_search_movie get_search_tv q_arg type_arg
                page_arg in
  (query = [] -> resp = (Routes.RError "Arama sorgusu gerekli", 400%Z))
  /\ (query <> [] ->
      exists movies tv_series,
        resp = (Routes.RSearch movies tv_series, 200%Z)
        /\ (content_type = "all"%string ->
            movies = Routes.search_movies R get_search_movie query page
            /\ tv_series = Routes.search_tv_series R get_search_tv query page)
        /\ (content_type = "movie"%string ->
            movies = Routes.search_movies R get_search_movie query page
            /\ tv_series = [])
        /\ (content_type = "tv"%string ->
            movies = []
            /\ tv_series = Routes.search_tv_series R get_search_tv query page)
        /\ (content_type <> "all"%string -> content_type <> "movie"%string ->
            content_type <> "tv"%string -> movies = [] /\ tv_series = []))
  /\ (forall r : Routes.tmdb R,
        Routes.search_results R r <> [] ->
        exists status_code results,
          r = Routes.Status R status_code (Py.Ok (Some results))
          /\ ~ (400 <= status_code < 600)%Z
          /\ Routes.search_results R r = results).
Proof.
  intros query content_type page resp. subst resp. unfold Routes.api_search.
  fold query content_type page.
  split; [|split].
  - now intros ->.
  - intros Hq. destruct query as [|c q] eqn:E; [congruence|].
    eexists _, _. split; [reflexivity|].
    split; [|split; [|split]].
    + now intros ->.
    + now intros ->.
    + now intros ->.
    + intros H1 H2 H3.
      apply String.eqb_neq in H1, H2, H3. now rewrite H1, H2, H3.
  - intros r Hr. destruct r as [msg | code json]; simpl in *; [congruence|].
    destruct (Routes.raises_for_status code) eqn:Hc; [congruence|].
    destruct json as [[results|]|msg]; try congruence.
    exists code, results. split; [reflexivity|]. split; [|reflexivity].
    unfold Routes.raises_for_status in Hc. lia.
Qed.

Lemma api_search_filters_witness :
  Routes.api_search Empty_set (fun _ _ => Routes.Unreachable Empty_set "down")
    (fun _ _ => Routes.Unreachable Empty_set "down") None None None
  = (Routes.RError "Arama sorgusu gerekli", 400%Z).
Proof.
  apply (proj1 (api_search_filters Empty_set
                  (fun _ _ => Routes.Unreachable Empty_set "down")
                  (fun _ _ => Routes.Unreachable Empty_set "down") None None None)).
  reflexivity.
Defined.

(* ===================================================================== *)
(** * More on the integration script                                      *)
(* ===================================================================== *)

Lemma no_key_no_details (TMDB_API_KEY : option Py.str)
    (requests_get : Z -> MovieLens.http) (tmdb_id : Z) :
  TMDB_API_KEY = None \/ TMDB_API_KEY = Some [] ->
  MovieLens.get_tmdb_movie_details TMDB_API_KEY requests_get tmdb_id = None.
Proof. intros [-> | ->]; reflexivity. Qed.

Lemma integrate_loop_no_key (TMDB_API_KEY : option Py.str)
    (requests_get requests_get' : Z -> MovieLens.http) (enrich : bool)
    links_df movies ids acc :
  TMDB_API_KEY = None \/ TMDB_API_KEY = Some [] ->
  MovieLens.integrate_loop TMDB_API_KEY requests_get enrich links_df movies ids acc
  = MovieLens.integrate_loop TMDB_API_KEY requests_get' false links_df movies ids acc.
Proof.
  intros Hkey. revert ids acc. induction movies as [|m movies IH]; intros ids acc; simpl;
    [reflexivity|].
  destruct (MovieLens.create_item_from_movielens m links_df ids) as [it|]; [|apply IH].
  assert ((if enrich
           then MovieLens.enrich_with_tmdb TMDB_API_KEY requests_get it (Data.item_id it)
           else it) = it) as ->; [|apply IH].
  destruct enrich; [|reflexivity].
  unfold MovieLens.enrich_with_tmdb. now rewrite no_key_no_details.
Qed.

(** X14. Without an API key (unset or empty) the script never uses the
    network: a run that asks for enrichment returns and writes exactly what
    the run without enrichment does, whatever the network would answer. *)
Theorem integrate_without_key (TMDB_API_KEY : option Py.str)
    (requests_get requests_get' : Z -> MovieLens.http) sample float_div fs movies_df
    ml_ratings_df links_df (enrich_from_tmdb : bool) max_movies sample_ratings :
  TMDB_API_KEY = None \/ TMDB_API_KEY = Some [] ->
  MovieLens.integrate_movielens TMDB_API_KEY requests_get sample float_div fs movies_df
    ml_ratings_df links_df enrich_from_tmdb max_movies sample_ratings
  = MovieLens.integrate_movielens TMDB_API_KEY requests_get' sample float_div fs
      movies_df ml_ratings_df links_df false max_movies sample_ratings.
Proof.
  intros Hkey. unfold MovieLens.integrate_movielens, MovieLens.integrate_items.
  now rewrite (integrate_loop_no_key TMDB_API_KEY requests_get requests_get'
                 enrich_from_tmdb) by exact Hkey.
Qed.

Lemma integrate_without_key_witness :
  MovieLens.integrate_movielens None offline (fun _ l => l) Qdiv (Data.Files None None)
    [toy_story] [] sample_links true None None
  = MovieLens.integrate_movielens None
      (fun _ => MovieLens.Response 200 (Py.Raise "no body")) (fun _ l => l) Qdiv
      (Data.Files None None) [toy_story] [] sample_links false None None.
Proof.
  apply (integrate_without_key None offline
           (fun _ => MovieLens.Response 200 (Py.Raise "no body")) (fun _ l => l) Qdiv
           (Data.Files None None) [toy_story] [] sample_links true None None).
  now left.
Defined.

(** X16. [max()] of a column skips its NaN cells: the result is a cell of
    the column and no cell is larger; it is NaN exactly when the column has
    no other cell. *)
Theorem column_max_spec (col : list (option Q)) :
  (forall m, MovieLens.column_max col = Some m ->
     In (Some m) col /\ forall x, In (Some x) col -> (x <= m)%Q)
  /\ (MovieLens.column_max col = None <-> forall x, In x col -> x = None).
Proof.
  split.
  - intros m H. split; [now apply column_max_member|].
    intros x. now apply column_max_upper.
  - split.
    + intros H. now apply column_max_fold_none in H as [_ H].
    + intros H. destruct (MovieLens.column_max col) as [m|] eqn:E; [|reflexivity].
      apply column_max_fold_member in E as [E | E]; [discriminate|].
      apply H in E. discriminate.
Qed.

Lemma column_max_spec_witness :
  In (Some 3%Q) [Some 1%Q; None; Some 3%Q; Some 2%Q].
Proof.
  apply (proj1 (column_max_spec [Some 1%Q; None; Some 3%Q; Some 2%Q]) 3%Q).
  reflexivity.
Defined.

Lemma normalize_item_idempotent float_div pm vm it :
  normalize_item float_div pm vm (normalize_item float_div pm vm it)
  = normalize_item float_div pm vm it.
Proof.
  unfold normalize_item.
  destruct pm as [m|]; [destruct (MovieLens.Qlt_bool 0 m)|];
    (destruct vm as [v|]; [destruct (MovieLens.Qlt_bool 0 v)|]); reflexivity.
Qed.

(** X17. The normalization of a catalog keeps its rows in number and
    order and changes none of the identifiers and raw stats; applied to a
    normalized catalog it changes nothing, whatever the rounding of the
    division is; when no popularity is positive it leaves the column
    popularity_norm as it found it. *)
Theorem normalize_idempotent (float_div : Q -> Q -> Q) (combined : list Data.item) :
  let normalized := MovieLens.normalize float_div combined in
  MovieLens.normalize float_div normalized = normalized
  /\ length normalized = length combined
  /\ map Data.item_id normalized = map Data.item_id combined
  /\ map Data.popularity normalized = map Data.popularity combined
  /\ map Data.vote_average normalized = map Data.vote_average combined
  /\ map Data.vote_count normalized = map Data.vote_count combined
  /\ ((forall p, In (Some p) (map Data.popularity combined) -> (p <= 0)%Q) ->
      map Data.popularity_norm normalized = map Data.popularity_norm combined).
Proof.
  intros normalized. subst normalized.
  destruct (normalize_columns float_div combined) as [Hp Hv].
  split; [|split; [|split; [|split; [|split; [|split]]]]].
  - rewrite (normalize_as_map float_div (MovieLens.normalize float_div combined)), Hp, Hv.
    rewrite normalize_as_map, map_map. apply map_ext. intros it.
    apply normalize_item_idempotent.
  - rewrite normalize_as_map. apply length_map.
  - apply normalize_ids.
  - exact Hp.
  - rewrite normalize_as_map, map_map. apply map_ext. intros it.
    apply normalize_item_raw.
  - exact Hv.
  - intros Hneg. rewrite normalize_as_map, map_map. apply map_ext. intros it.
    unfold normalize_item.
    destruct (MovieLens.column_max (map Data.popularity combined)) as [m|] eqn:E.
    + assert (MovieLens.Qlt_bool 0 m = false) as ->.
      { unfold MovieLens.Qlt_bool. apply negb_false_iff, Qle_bool_iff, Hneg.
        now apply column_max_member. }
      destruct (MovieLens.column_max (map Data.vote_count combined)) as [v|];
        [destruct (MovieLens.Qlt_bool 0 v)|]; reflexivity.
    + destruct (MovieLens.column_max (map Data.vote_count combined)) as [v|];
        [destruct (MovieLens.Qlt_bool 0 v)|]; reflexivity.
Qed.

Lemma normalize_idempotent_witness :
  map Data.popularity_norm (MovieLens.normalize Qdiv stale_catalog) = [Some (1 # 2); None]
  /\ map Data.vote_count_norm (MovieLens.normalize Qdiv stale_catalog)
     = [Some (3 / 6)%Q; Some (6 / 6)%Q].
Proof.
  split; [|reflexivity].
  apply (proj2 (proj2 (proj2 (proj2 (proj2 (proj2
           (normalize_idempotent Qdiv stale_catalog))))))).
  intros p [H | [H | []]]; injection H as <-; discriminate.
Defined.

(* ===================================================================== *)
(** * Duplicates and re-runs                                              *)
(* ===================================================================== *)

Lemma existsb_incl {A} (f : A -> bool) (l k : list A) :
  (forall x, In x l -> In x k) -> existsb f k = false -> existsb f l = false.
Proof.
  intros Hincl Hk. destruct (existsb f l) eqn:E; [|reflexivity].
  apply existsb_exists in E as (x & Hx & Hf).
  assert (existsb f k = true) as H; [|congruence].
  apply existsb_exists. eauto.
Qed.

Lemma dup_cell_class (a b : Py.value) :
  Data.dup_cell a b = true <-> eq_class a = eq_class b.
Proof.
  unfold Data.dup_cell. rewrite orb_true_iff. split.
  - intros [H | H]; [now apply eqb_class in H|].
    destruct a, b; try discriminate. reflexivity.
  - intros H. destruct (eq_class a) eqn:Ea.
    + left. apply eqb_class. split; congruence.
    + right. destruct a; try discriminate Ea. destruct b; try discriminate H.
      reflexivity.
Qed.

Lemma dup_key_frame_key (r row : Data.rating_row) :
  Data.dup_key r row = true <-> frame_key row = frame_key r.
Proof.
  unfold Data.dup_key, frame_key. rewrite andb_true_iff, !dup_cell_class.
  split; [intros [-> ->]; reflexivity | intros [= -> ->]; auto].
Qed.

Lemma existsb_dup_key_frame (r : Data.rating_row) rows :
  existsb (Data.dup_key r) rows = true <-> In (frame_key r) (map frame_key rows).
Proof.
  rewrite existsb_exists, in_map_iff.
  split; intros (row & H1 & H2); exists row.
  - split; [now apply dup_key_frame_key | exact H1].
  - split; [exact H2 | now apply dup_key_frame_key].
Qed.

Lemma drop_duplicates_last_of_key rows : last_of_key (MovieLens.drop_duplicates rows).
Proof.
  induction rows as [|r rest IH]; simpl; [exact I|].
  destruct (existsb (Data.dup_key r) rest) eqn:E; [exact IH|].
  simpl. split; [|exact IH].
  eapply existsb_incl; [|exact E]. intros x. apply drop_duplicates_incl.
Qed.

Lemma drop_duplicates_fixed rows :
  last_of_key rows -> MovieLens.drop_duplicates rows = rows.
Proof.
  induction rows as [|r rest IH]; simpl; [reflexivity|].
  intros [-> H]. now rewrite IH.
Qed.

Lemma last_of_key_frame_keys rows :
  last_of_key rows <-> NoDup (map frame_key rows).
Proof.
  induction rows as [|r rest IH]; simpl; [split; [constructor | auto]|].
  rewrite NoDup_cons, <- IH, list_elem_of_In, <- existsb_dup_key_frame.
  split; intros [H1 H2]; (split; [|exact H2]).
  - now rewrite H1.
  - now apply not_true_is_false.
Qed.

Lemma drop_duplicates_sublist rows : sublist (MovieLens.drop_duplicates rows) rows.
Proof.
  induction rows as [|r rest IH]; simpl; [constructor|].
  destruct (existsb _ rest); [now apply sublist_cons | now apply sublist_skip].
Qed.

Lemma drop_duplicates_keeps_keys rows k :
  In k (map frame_key rows) -> In k (map frame_key (MovieLens.drop_duplicates rows)).
Proof.
  induction rows as [|x rest IH]; simpl; [auto|].
  destruct (existsb (Data.dup_key x) rest) eqn:E.
  - intros [<- | H]; [|auto]. apply IH. now apply existsb_dup_key_frame.
  - simpl. intros [H | H]; [now left | right; auto].
Qed.








(** X18. [drop_duplicates] keeps the rows in their order and only removes
    rows; the rows it keeps have pairwise different keys, two missing cells
    counting as one value; every key of the frame is still in the result,
    and the row kept for a key is the last row of that key; a frame with
    one row per key is left alone, so that applying it twice does what
    applying it once does. *)
Theorem drop_duplicates_laws (rows : list Data.rating_row) :
  let kept := MovieLens.drop_duplicates rows in
  sublist kept rows
  /\ NoDup (map frame_key kept)
  /\ (forall k, In k (map frame_key rows) -> In k (map frame_key kept))
  /\ (forall l1 r l2, rows = l1 ++ r :: l2 ->
        ~ In (frame_key r) (map frame_key l2) -> In r kept)
  /\ (NoDup (map frame_key rows) -> kept = rows)
  /\ MovieLens.drop_duplicates kept = kept.
Proof.
  intros kept. subst kept.
  split; [apply drop_duplicates_sublist|].
  split; [apply last_of_key_frame_keys, drop_duplicates_last_of_key|].
  split; [intros k; apply drop_duplicates_keeps_keys|].
  split; [|split].
  - intros l1 r l2 -> Hno. apply drop_duplicates_keeps_last.
    destruct (existsb (Data.dup_key r) l2) eqn:E; [|reflexivity].
    exfalso. apply Hno. now apply existsb_dup_key_frame.
  - intros H. now apply drop_duplicates_fixed, last_of_key_frame_keys.
  - apply drop_duplicates_fixed, drop_duplicates_last_of_key.
Qed.

Lemma drop_duplicates_laws_witness :
  In (Data.RatingRow (Py.VInt 1) (Py.VInt 10) (Py.VInt 5) (Q2Qc 300))
    (MovieLens.drop_duplicates rated_twice)
  /\ map Data.r_rating (MovieLens.drop_duplicates rated_twice)
     = [Py.VInt 5; Py.VInt 6].
Proof.
  split; [|vm_compute; reflexivity].
  apply (proj1 (proj2 (proj2 (proj2 (drop_duplicates_laws rated_twice))))
           [Data.RatingRow (Py.VInt 1) (Py.VInt 10) (Py.VInt 3) (Q2Qc 100);
            Data.RatingRow Py.VNone (Py.VInt 10) (Py.VInt 4) (Q2Qc 200)]
           (Data.RatingRow (Py.VInt 1) (Py.VInt 10) (Py.VInt 5) (Q2Qc 300))
           [Data.RatingRow Py.VNone (Py.VInt 10) (Py.VInt 6) (Q2Qc 400)]
           eq_refl).
  intros [H | []]. discriminate H.
Defined.



Lemma merge_links_In (ml_ratings_df : list MovieLens.ml_rating)
    (links_df : list MovieLens.link_row) (r : MovieLens.ml_rating) (t : Z) :
  In (r, Some t) (MovieLens.merge_links ml_ratings_df links_df)
  <-> In r ml_ratings_df
      /\ exists l, In l links_df /\ MovieLens.l_movieId l = MovieLens.ml_movieId r
                   /\ MovieLens.tmdbId l = Some t.
Proof.
  unfold MovieLens.merge_links. rewrite in_flat_map. split.
  - intros (r' & Hr' & Hp).
    destruct (List.filter _ links_df) as [|l0 ls] eqn:F.
    + destruct Hp as [[= _ ?] | []].
    + apply in_map_iff in Hp as (l & [= -> Ht] & Hl).
      rewrite <- F in Hl. apply filter_In in Hl as [Hl Hid]. apply Z.eqb_eq in Hid.
      split; [exact Hr'|]. eauto.
  - intros (Hr & l & Hl & Hid & Ht). exists r. split; [exact Hr|].
    assert (In l (List.filter (fun l => (MovieLens.l_movieId l =? MovieLens.ml_movieId r)%Z)
                    links_df)) as Hf.
    { apply filter_In. split; [exact Hl | now apply Z.eqb_eq]. }
    destruct (List.filter _ links_df) as [|l0 ls]; [contradiction|].
    apply in_map_iff. exists l. split; [now rewrite Ht | exact Hf].
Qed.

(** X20. A converted rating never comes from nowhere: the frame
    [convert_movielens_ratings] returns holds exactly the rows made of a
    rating row and a links row of the same movie that has a TMDb identifier,
    with that identifier as item, the rating and the timestamp of the rating
    row, and its user id plus 1000 in 64-bit arithmetic. *)
Theorem convert_movielens_ratings_membership (ml_ratings_df : list MovieLens.ml_rating)
    (links_df : list MovieLens.link_row) (c : MovieLens.converted) :
  In c (MovieLens.convert_movielens_ratings ml_ratings_df links_df)
  <-> exists r l,
        In r ml_ratings_df /\ In l links_df
        /\ MovieLens.l_movieId l = MovieLens.ml_movieId r
        /\ MovieLens.tmdbId l = Some (MovieLens.c_item_id c)
        /\ MovieLens.c_user_id c = MovieLens.wrap64 (MovieLens.userId r + 1000)
        /\ MovieLens.c_rating c = MovieLens.ml_rating_value r
        /\ MovieLens.c_timestamp c = MovieLens.ml_timestamp r.
Proof.
  unfold MovieLens.convert_movielens_ratings. rewrite in_flat_map. split.
  - intros ([r [t|]] & Hp & Hc); simpl in Hc; [|contradiction].
    destruct Hc as [<- | []]. apply merge_links_In in Hp as (Hr & l & Hl & Hid & Ht).
    exists r, l. simpl. auto 10.
  - intros (r & l & Hr & Hl & Hid & Ht & Hu & Hv & Hs).
    exists (r, Some (MovieLens.c_item_id c)). split.
    + apply merge_links_In. split; [exact Hr|]. eauto.
    + simpl. left. destruct c as [u i v s]. simpl in *. now subst.
Qed.

Lemma convert_movielens_ratings_membership_witness :
  In (MovieLens.Converted 1001 862 (Q2Qc 4) 964982703)
    (MovieLens.convert_movielens_ratings
       [MovieLens.MlRating 1 1 (Q2Qc 4) 964982703] sample_links).
Proof.
  apply (proj2 (convert_movielens_ratings_membership
                  [MovieLens.MlRating 1 1 (Q2Qc 4) 964982703] sample_links
                  (MovieLens.Converted 1001 862 (Q2Qc 4) 964982703))).
  exists (MovieLens.MlRating 1 1 (Q2Qc 4) 964982703), (MovieLens.LinkRow 1 (Some 862%Z)).
  simpl. repeat split; auto.
Defined.

Lemma integrate_loop_length (TMDB_API_KEY : option Py.str)
    (requests_get : Z -> MovieLens.http) enrich links_df movies ids acc :
  (length (fst (MovieLens.integrate_loop TMDB_API_KEY requests_get enrich links_df
                  movies ids acc))
   <= length acc + length movies)%nat.
Proof.
  revert ids acc. induction movies as [|m movies IH]; intros ids acc; simpl; [lia|].
  destruct (MovieLens.create_item_from_movielens m links_df ids) as [it|].
  - etransitivity; [apply IH|]. rewrite length_app. simpl. lia.
  - etransitivity; [apply IH|]. lia.
Qed.

(** X21. The catalog a run returns starts with the existing rows, in
    their order and with their identifiers, followed by at most one new item
    per processed movie: at most max_movies new items when the bound is given
    and not negative, and none when it is 0, in which case [items.csv] is not
    written. *)
Theorem integrate_items_bound (TMDB_API_KEY : option Py.str)
    (requests_get : Z -> MovieLens.http) (float_div : Q -> Q -> Q)
    existing movies_df links_df enrich max_movies :
  let run := MovieLens.integrate_items TMDB_API_KEY requests_get float_div existing
               movies_df links_df enrich max_movies in
  exists new_ids,
    map Data.item_id (snd run) = catalog_ids existing ++ new_ids
    /\ (length new_ids <= length movies_df)%nat
    /\ (forall n, max_movies = Some n -> (0 <= n)%Z ->
          (Z.of_nat (length new_ids) <= n)%Z)
    /\ (max_movies = Some 0%Z -> fst run = None)
    /\ (new_ids = [] <-> fst run = None).
Proof.
  intros run. subst run. unfold MovieLens.integrate_items.
  set (processed := match max_movies with
                    | Some n => MovieLens.head n movies_df
                    | None => movies_df
                    end).
  set (ex := default [] existing).
  pose proof (integrate_loop_length TMDB_API_KEY requests_get enrich links_df processed
                (list_to_set (map Data.item_id ex)) []) as Hlen.
  simpl in Hlen.
  set (new := fst (MovieLens.integrate_loop TMDB_API_KEY requests_get enrich links_df
                     processed (list_to_set (map Data.item_id ex)) [])) in *.
  assert (length processed <= length movies_df)%nat as Hproc.
  { unfold processed. destruct max_movies as [n|]; [|lia].
    unfold MovieLens.head. destruct (0 <=? n)%Z; rewrite length_take; lia. }
  assert (forall n, max_movies = Some n -> (0 <= n)%Z ->
            (Z.of_nat (length processed) <= n)%Z) as Hmax.
  { intros n -> Hn. unfold processed, MovieLens.head.
    apply Z.leb_le in Hn as Hn'. rewrite Hn', length_take. lia. }
  exists (map Data.item_id new). rewrite length_map.
  split; [|split; [lia|split; [|split]]].
  - destruct new as [|it rest]; simpl snd.
    + unfold catalog_ids. fold ex. now rewrite app_nil_r.
    + rewrite normalize_ids, map_app. reflexivity.
  - intros n Hn Hpos. specialize (Hmax n Hn Hpos). lia.
  - intros Hzero. specialize (Hmax 0%Z Hzero ltac:(lia)).
    destruct new as [|it rest]; [reflexivity|]. simpl in Hlen. lia.
  - destruct new as [|it rest]; simpl; split; try reflexivity; discriminate.
Qed.

Lemma integrate_items_bound_witness :
  fst (MovieLens.integrate_items None offline Qdiv None [toy_story; jumanji]
         sample_links false (Some 0%Z)) = None.
Proof.
  destruct (integrate_items_bound None offline Qdiv None [toy_story; jumanji]
              sample_links false (Some 0%Z)) as (new_ids & _ & _ & _ & Hzero & _).
  apply Hzero. reflexivity.
Defined.

(** Two ratings of one user for one movie: the integration keeps the
    later one, under the user id moved by 1000 and the TMDb identifier. *)
Example integrate_sample_run :
  map (fun r => (Data.r_user_id r, Data.r_item_id r, Data.r_rating r))
    (snd (fst (System.integrate sample_run (Data.Files None None))))
  = [(Py.VInt 1001, Py.VInt 862, Py.VNum (Q2Qc 5))].
Proof. vm_compute. reflexivity. Qed.

Lemma overwrite_fixed u i r now rows :
  (forall row, In row rows -> Data.same_key u i row = true ->
     Data.r_rating row = r /\ Data.r_timestamp row = now) ->
  map (App.overwrite u i r now) rows = rows.
Proof.
  induction rows as [|x rows IH]; simpl; intros H; [reflexivity|].
  rewrite IH by (intros row Hrow; apply H; now right). f_equal.
  unfold App.overwrite. destruct (Data.same_key u i x) eqn:E; [|reflexivity].
  destruct (H x (or_introl eq_refl) E) as [<- <-]. now destruct x.
Qed.

(** X22. Sending an accepted rating request again, with the same body and
    at the same clock reading, changes nothing: the frame in memory and the
    file are what the first request left. *)
Theorem api_add_rating_retry (st : App.state) (fs : Data.files)
    (data : gmap string Py.value) (now : Qc) :
  Py.all [App.get data "user_id"; App.get data "item_id"; App.get data "rating"] = true ->
  let '(_, st1, fs1) := App.api_add_rating st fs data now in
  App.api_add_rating st1 fs1 data now
  = ((App.BSuccess "Değerlendirme kaydedildi", 200%Z), st1, fs1).
Proof.
  intros Hall. unfold App.api_add_rating. rewrite Hall. simpl negb. cbv iota.
  set (u := App.get data "user_id") in *. set (i := App.get data "item_id") in *.
  set (r := App.get data "rating") in *. set (df := default [] (App.ratings_df st)).
  simpl in Hall. apply andb_true_iff in Hall as [Hu Hall].
  apply andb_true_iff in Hall as [Hi _].
  simpl App.ratings_df. simpl default.
  destruct (existsb (Data.same_key u i) df) eqn:E.
  - assert (existsb (Data.same_key u i) (map (App.overwrite u i r now) df) = true) as ->.
    { apply existsb_exists in E as (row & Hin & Hrow). apply existsb_exists.
      exists (App.overwrite u i r now row). split; [now apply in_map|].
      now rewrite overwrite_same_key. }
    rewrite (overwrite_fixed u i r now (map (App.overwrite u i r now) df));
      [reflexivity|].
    intros row Hin Hkey. apply in_map_iff in Hin as (old & <- & _).
    rewrite overwrite_same_key in Hkey. unfold App.overwrite. now rewrite Hkey.
  - assert (Data.same_key u i (Data.RatingRow u i r now) = true) as Hnew.
    { unfold Data.same_key. simpl. now rewrite !eqb_refl_truthy. }
    assert (existsb (Data.same_key u i) (df ++ [Data.RatingRow u i r now]) = true) as ->.
    { rewrite existsb_app. simpl. rewrite Hnew. apply orb_true_r. }
    rewrite (overwrite_fixed u i r now (df ++ [Data.RatingRow u i r now]));
      [reflexivity|].
    intros row Hin Hkey. apply in_app_or in Hin as [Hin | [<- | []]]; [|now split].
    exfalso. assert (existsb (Data.same_key u i) df = true) as H; [|congruence].
    apply existsb_exists. eauto.
Qed.

Lemma api_add_rating_retry_witness :
  let '(_, st1, fs1) :=
    App.api_add_rating App.initial_state (Data.Files None None) (sample_rating 3)
      (Q2Qc 100) in
  App.api_add_rating st1 fs1 (sample_rating 3) (Q2Qc 100)
  = ((App.BSuccess "Değerlendirme kaydedildi", 200%Z), st1, fs1).
Proof.
  apply (api_add_rating_retry App.initial_state (Data.Files None None)
           (sample_rating 3) (Q2Qc 100)).
  reflexivity.
Defined.


